(** * power-manager: the orchestrator of [src/power_manager/cli.py]

    A shallow embedding of the power-action orchestrator and of the
    animation handshake it drives, followed by the properties of the
    specification that concern them.

    Conventions of the embedding.
    - Durations and instants are rationals, in seconds, as the source
      writes them ([5.0], [30.0], [1.0], [2], [3], the integer [--hold]).
    - A character is a code point below 256; an f-string is kept as the
      list of its literal and interpolated pieces, so that no number
      formatting is involved.
    - Every call that leaves the interpreter (log, print, sleep, wait,
      subprocess, signal, socket) is recorded as an [event] of the calling
      thread; what the outside answers is read from an [Env].
    - The animation subprocess is described by the lines it writes, each
      with the instant (counted from its spawn) at which the line becomes
      readable, by the way its output ends, by its reaction to SIGTERM and
      by the time SIGKILL takes to remove it.
      The reader thread consumes what is readable whenever the clock moves.
    - Writing the debug log, printing and spawning a program do not fail.
    - [time.sleep] refuses a negative length ([ValueError]).  The length of
      [--hold], an integer of any size, is modelled in full: [OverflowError]
      when it does not fit the count of nanoseconds, [OSError] when the
      clock of the platform refuses the deadline. *)

From Stdlib Require Import ZArith NArith QArith List String Ascii Bool Lia Lqa.
From Stdlib Require Import Sorted Permutation.
From Stdlib.Strings Require Import Byte.
Import ListNotations.
Open Scope string_scope.
Open Scope Z_scope.
Open Scope list_scope.

(** ** Python strings *)

Module PyStr.

(** [str.isspace] on the code points below 256: TAB, LF, VT, FF, CR, FS,
    GS, RS, US, SPACE, NEL (U+0085) and NO-BREAK SPACE (U+00A0).  It is the
    class of [strip] and of [split] without argument. *)
Definition isspace (c : ascii) : bool :=
  let n := nat_of_ascii c in
  ((9 <=? n) && (n <=? 13) || (28 <=? n) && (n <=? 32)
   || (n =? 133) || (n =? 160))%nat.

Fixpoint lstrip (s : string) : string :=
  match s with
  | String c r => if isspace c then lstrip r else s
  | EmptyString => EmptyString
  end.

(** [rstrip]: a character is kept when it is not a space or when something
    is kept after it. *)
Fixpoint rstrip (s : string) : string :=
  match s with
  | String c r =>
      match rstrip r with
      | EmptyString => if isspace c then EmptyString else String c EmptyString
      | r' => String c r'
      end
  | EmptyString => EmptyString
  end.

(** [s.strip()] *)
Definition strip (s : string) : string := rstrip (lstrip s).

(** [s.split(sep)] for a one-character separator: never empty. *)
Fixpoint split_on (sep : ascii) (s : string) : list string :=
  match s with
  | EmptyString => [EmptyString]
  | String c r =>
      if Ascii.eqb c sep then EmptyString :: split_on sep r
      else match split_on sep r with
           | w :: ws => String c w :: ws
           | [] => [String c EmptyString]
           end
  end.

(** [s.split()]: the maximal runs of non-space characters. *)
Fixpoint split_ws_aux (cur : option string) (s : string) : list string :=
  match s with
  | EmptyString => match cur with Some w => [w] | None => [] end
  | String c r =>
      if isspace c
      then match cur with
           | Some w => w :: split_ws_aux None r
           | None => split_ws_aux None r
           end
      else split_ws_aux
             (Some ((match cur with Some w => w | None => EmptyString end)
                    ++ String c EmptyString)%string) r
  end.

Definition split_ws (s : string) : list string := split_ws_aux None s.

(** [sep.join(l)] *)
Definition join (sep : string) (l : list string) : string := String.concat sep l.

(** Truth value of a string: non-empty. *)
Definition truthy (s : string) : bool :=
  match s with EmptyString => false | _ => true end.

Definition LF : ascii := ascii_of_nat 10.

(** [posixpath.join(a, b)] *)
Definition path_join2 (a b : string) : string :=
  match b with
  | String "/"%char _ => b
  | _ =>
      match a with
      | EmptyString => b
      | _ => if String.eqb (substring (String.length a - 1) 1 a) "/"
             then (a ++ b)%string else (a ++ "/" ++ b)%string
      end
  end.

Definition path_join (a : string) (rest : list string) : string :=
  fold_left path_join2 rest a.

End PyStr.

(** ** f-strings, exceptions, events *)

Inductive piece :=
| Lit (s : string)            (* literal text *)
| PStr (s : string)           (* {x} for a string x *)
| PInt (z : Z)                (* {n} for an integer *)
| PSecs (q : Q)               (* {t} for a float number of seconds *)
| PArgv (argv : list string). (* {' '.join(cmd)} *)

Definition text := list piece.

Inductive exn :=
| TypeError (msg : string)
| ValueError (msg : string)
| OverflowError (msg : string)
| TimeoutExpired
| OSError (msg : string).

Inductive latch := Ready | Black.

Inductive event :=
| Debug (m : text)                          (* debug_log(m) *)
| Print (m : text)                          (* print(m) *)
| PrintErr (m : text)                       (* print(m, file=sys.stderr) *)
| Sleep (secs : Q)                          (* time.sleep(secs) *)
| SpawnAnimation (argv : list string)       (* Popen(argv, stdout=PIPE, ...) *)
| Popen (argv : list string)                (* Popen(argv, DEVNULL): detached *)
| Run (argv : list string)                  (* subprocess.run(argv): waited for *)
| Wait (l : latch) (timeout : Q) (r : bool) (* Event.wait(timeout) = r *)
| ProcTerminate                             (* process.terminate() *)
| ProcWait (timeout : Q) (exited : bool)    (* process.wait(timeout) *)
| ProcKill                                  (* process.kill() *)
| Ipc (method : string) (ok : bool)         (* one request on the socket *)
| InstallHandlers                           (* signal.signal(SIGTERM/SIGINT, ...) *)
| InitLog.                                  (* the debug log is truncated *)

(** ** The outside world *)

Inductive stream_end :=
| Eof                        (* the subprocess exited: end of file *)
| ReadError (msg : string).  (* reading the pipe raised *)

Record Env := {
  path_exists : string -> bool;      (* os.path.exists, on a path *)
  path_isdir : string -> bool;       (* os.path.isdir *)
  discovery : option (string -> option string);
    (* get_animation_script of the sibling package; None: ImportError *)
  environ_effects_dir : option string; (* os.environ.get('SHUTDOWN_EFFECTS_DIR') *)
  xdg_dir : string;     (* expanduser('~/.config/shutdown-effect/animations') *)
  sibling_dir : string; (* <parent of SCRIPT_DIR>/shutdown-effect/animations *)
  anim_stdout : list (Q * string);   (* lines of the animation, with instants *)
  anim_end : option (Q * stream_end);(* how its output ends; None: it holds *)
  anim_sigterm : option Q;           (* delay from SIGTERM to exit; None: ignored *)
  anim_sigkill : Q;
    (* delay from SIGKILL until the exit is there for poll() to see *)
  sleep_error : Q -> Z -> option string;
    (* the clock of the platform asked, at an instant, for a sleep of so many
       seconds taken from the command line: the text of its OSError, or None
       when it sleeps *)
  ipc_reply : nat -> string -> option string;
    (* n-th request, method: None on success, the exception text otherwise *)
  list_sessions : option string;
    (* stdout of loginctl list-sessions; None: subprocess.run raised *)
  efibootmgr : Z * string            (* returncode and stderr of the helper *)
}.

(** ** Program state *)

(** The reader thread: inside its [for] loop with the input still to come,
    or past its [finally]. *)
Inductive Reader :=
| Reading (pending : list (Q * string)) (fin : option (Q * stream_end))
| Exited.

(** A [subprocess.Popen] object: the instant from which the process is
    gone, once that is settled. *)
Record PopenObj := { gone : option Q }.

(** The fields of [AnimationProcess.__init__]; a [threading.Event] is its
    flag. *)
Record AnimationProcess := {
  script_path : option string;
  process : option PopenObj;
  ready_event : bool;
  black_event : bool;
  _reader_thread : option Reader
}.

Record World := {
  now : Q;                     (* the clock *)
  ipc_calls : nat;             (* requests sent so far *)
  animation : AnimationProcess;(* the one animation handle of a run *)
  reader_log : list text       (* debug_log lines of the reader thread *)
}.

Definition set_now (t : Q) (w : World) : World :=
  {| now := t; ipc_calls := ipc_calls w; animation := animation w;
     reader_log := reader_log w |}.

Definition set_animation (a : AnimationProcess) (w : World) : World :=
  {| now := now w; ipc_calls := ipc_calls w; animation := a;
     reader_log := reader_log w |}.

Definition count_ipc (w : World) : World :=
  {| now := now w; ipc_calls := S (ipc_calls w); animation := animation w;
     reader_log := reader_log w |}.

Definition log_reader (ms : list text) (w : World) : World :=
  {| now := now w; ipc_calls := ipc_calls w; animation := animation w;
     reader_log := reader_log w ++ ms |}.

(** ** The monad of the main thread: environment, state, events, and an
    outcome that is a value, an exception, or still being inside
    [while True] when the fuel is spent. *)

Inductive outcome (A : Type) :=
| Ret (a : A)
| Raise (e : exn)
| Holding.

Arguments Ret {A} a.
Arguments Raise {A} e.
Arguments Holding {A}.

Definition M (A : Type) : Type := Env -> World -> outcome A * World * list event.

Definition ret {A} (a : A) : M A := fun _ w => (Ret a, w, []).

Definition raise {A} (e : exn) : M A := fun _ w => (Raise e, w, []).

Definition holding {A} : M A := fun _ w => (Holding, w, []).

Definition bind {A B} (m : M A) (k : A -> M B) : M B :=
  fun env w =>
    match m env w with
    | (Ret a, w1, t1) =>
        match k a env w1 with (r, w2, t2) => (r, w2, t1 ++ t2) end
    | (Raise e, w1, t1) => (Raise e, w1, t1)
    | (Holding, w1, t1) => (Holding, w1, t1)
    end.

(** [try: m  except <those e for which h e is Some>: h e] *)
Definition try_except {A} (m : M A) (h : exn -> option (M A)) : M A :=
  fun env w =>
    match m env w with
    | (Raise e, w1, t1) =>
        match h e with
        | Some k => match k env w1 with (r, w2, t2) => (r, w2, t1 ++ t2) end
        | None => (Raise e, w1, t1)
        end
    | r => r
    end.

Definition emit (e : event) : M unit := fun _ w => (Ret tt, w, [e]).
Definition ask : M Env := fun env w => (Ret env, w, []).
Definition get : M World := fun _ w => (Ret w, w, []).
Definition modify (f : World -> World) : M unit := fun _ w => (Ret tt, f w, []).

Notation "x <- m ;; k" := (bind m (fun x => k))
  (at level 61, m at next level, right associativity).
Notation "m ;; k" := (bind m (fun _ => k))
  (at level 61, right associativity).

Definition result {A} (r : outcome A * World * list event) : outcome A := fst (fst r).
Definition final {A} (r : outcome A * World * list event) : World := snd (fst r).
Definition events {A} (r : outcome A * World * list event) : list event := snd r.

Definition when (b : bool) (m : M unit) : M unit := if b then m else ret tt.

Definition debug_log (m : text) : M unit := emit (Debug m).
Definition print (m : text) : M unit := emit (Print m).
Definition print_err (m : text) : M unit := emit (PrintErr m).

(** ** threading.Event: the flag; [set] raises it, nothing in the program
    calls [clear]. *)

Module Event.
Definition t := bool.
Definition new : t := false.
Definition set (e : t) : t := true.
Definition is_set (e : t) : bool := e.
End Event.

(** ** AnimationProcess *)

Definition __init__ (path : option string) : AnimationProcess :=
  {| script_path := path; process := None;
     ready_event := Event.new; black_event := Event.new;
     _reader_thread := None |}.

Definition with_process (p : option PopenObj) (a : AnimationProcess) :=
  {| script_path := script_path a; process := p;
     ready_event := ready_event a; black_event := black_event a;
     _reader_thread := _reader_thread a |}.

Definition with_ready (e : Event.t) (a : AnimationProcess) :=
  {| script_path := script_path a; process := process a;
     ready_event := e; black_event := black_event a;
     _reader_thread := _reader_thread a |}.

Definition with_black (e : Event.t) (a : AnimationProcess) :=
  {| script_path := script_path a; process := process a;
     ready_event := ready_event a; black_event := e;
     _reader_thread := _reader_thread a |}.

Definition with_reader (r : option Reader) (a : AnimationProcess) :=
  {| script_path := script_path a; process := process a;
     ready_event := ready_event a; black_event := black_event a;
     _reader_thread := r |}.

Definition flag (l : latch) (a : AnimationProcess) : bool :=
  match l with
  | Ready => Event.is_set (ready_event a)
  | Black => Event.is_set (black_event a)
  end.

(** *** The reader thread: [_read_signals] *)

(** The body of [for line in self.process.stdout]. *)
Definition read_line (raw : string) (a : AnimationProcess)
  : AnimationProcess * list text :=
  let line := PyStr.strip raw in
  (if (line =? "READY")%string then with_ready (Event.set (ready_event a)) a
   else if (line =? "BLACK")%string then with_black (Event.set (black_event a)) a
   else a,
   [[Lit "Animation signal: "; PStr line]]).

(** Leaving the loop: the [except] clause when reading raised, then the
    [finally] clause. *)
Definition read_finish (k : stream_end) (a : AnimationProcess)
  : AnimationProcess * list text :=
  let a1 := with_ready (Event.set (ready_event a)) a in
  let a2 := with_black (Event.set (black_event a1)) a1 in
  (a2, match k with
       | Eof => []
       | ReadError e => [[Lit "Error reading animation signals: "; PStr e]]
       end).

Fixpoint read_loop (lines : list string) (a : AnimationProcess)
  : AnimationProcess * list text :=
  match lines with
  | [] => (a, [])
  | raw :: rest =>
      let (a1, m1) := read_line raw a in
      let (a2, m2) := read_loop rest a1 in
      (a2, m1 ++ m2)
  end.

(** [_read_signals] on an output of [lines] that ends by [k]: the object it
    leaves and the lines it logs.  (On an output that never ends it does not
    return.) *)
Definition _read_signals (lines : list string) (k : stream_end)
  (a : AnimationProcess) : AnimationProcess * list text :=
  let (a1, m1) := read_loop lines a in
  let (a2, m2) := read_finish k a1 in
  (a2, m1 ++ m2).

(** The same thread against the clock: at instant [t] it has consumed
    every line readable by [t], in order, and has left the loop when the
    output has ended by [t]. *)
Fixpoint drain (t : Q) (pending : list (Q * string))
  (fin : option (Q * stream_end)) (a : AnimationProcess)
  : AnimationProcess * list text :=
  match pending with
  | (tl, raw) :: rest =>
      if Qle_bool tl t
      then let (a1, m1) := read_line raw a in
           let (a2, m2) := drain t rest fin a1 in
           (a2, m1 ++ m2)
      else (with_reader (Some (Reading pending fin)) a, [])
  | [] =>
      match fin with
      | Some (te, k) =>
          if Qle_bool te t
          then let (a1, m) := read_finish k a in
               (with_reader (Some Exited) a1, m)
          else (with_reader (Some (Reading [] fin)) a, [])
      | None => (with_reader (Some (Reading [] None)) a, [])
      end
  end.

Definition run_reader (w : World) : World :=
  match _reader_thread (animation w) with
  | Some (Reading p f) =>
      let (a, ms) := drain (now w) p f (animation w) in
      log_reader ms (set_animation a w)
  | _ => w
  end.

Definition qmax (a b : Q) : Q := if Qle_bool a b then b else a.

(** The clock moves (never backwards) and the reader catches up. *)
Definition advance (t : Q) (w : World) : World :=
  run_reader (set_now (qmax (now w) t) w).

(** [time.sleep(secs)] for a length that the program supplies itself: the
    literals [1] and [3] and the retry delay ([1.0] at every call site).
    Such a length is far from the limits of the conversion to nanoseconds
    and of the clock; the limits are modelled where a length comes from
    outside, in [time_sleep_int]. *)
Definition time_sleep (secs : Q) : M unit :=
  if Qle_bool 0 secs
  then emit (Sleep secs) ;; w <- get ;; modify (advance (now w + secs)%Q)
  else raise (ValueError "sleep length must be non-negative").

(** The whole seconds that fit CPython's count of nanoseconds on 64 bits:
    9223372036, on both sides of zero. *)
Definition PYTIME_SECS_MAX : Z := (2 ^ 63 - 1) / 10 ^ 9.

(** [time.sleep(secs)] for an integer of any size, as [--hold] gives it:
    the conversion to nanoseconds raises [OverflowError] out of range and
    comes first; then a negative length is refused; then the clock of the
    platform may refuse the deadline ([OSError]); then the thread sleeps. *)
Definition time_sleep_int (secs : Z) : M unit :=
  if (secs <? - PYTIME_SECS_MAX) || (PYTIME_SECS_MAX <? secs)
  then raise (OverflowError "timestamp too large to convert to C _PyTime_t")
  else if secs <? 0
  then raise (ValueError "sleep length must be non-negative")
  else
    env <- ask ;;
    w <- get ;;
    match sleep_error env (now w) secs with
    | Some e => raise (OSError e)
    | None => time_sleep (inject_Z secs)
    end.

(** *** Event.wait *)

Definition sentinel_of (l : latch) : string :=
  match l with Ready => "READY" | Black => "BLACK" end.

(** The instant at which the reader raises latch [l], from instant [t0]. *)
Fixpoint set_instant (l : latch) (t0 : Q) (pending : list (Q * string))
  (fin : option (Q * stream_end)) : option Q :=
  match pending with
  | (tl, raw) :: rest =>
      let t := qmax t0 tl in
      if (PyStr.strip raw =? sentinel_of l)%string then Some t
      else set_instant l t rest fin
  | [] =>
      match fin with
      | Some (te, _) => Some (qmax t0 te)
      | None => None
      end
  end.

(** [event.wait(timeout)]: immediate when the flag is up; otherwise the
    caller sleeps until the flag is raised or the timeout has elapsed, and
    gets the flag. *)
Definition Event_wait (l : latch) (timeout : Q) : M bool :=
  w <- get ;;
  if flag l (animation w) then emit (Wait l timeout true) ;; ret true
  else
    let deadline := (now w + timeout)%Q in
    let wake :=
      match _reader_thread (animation w) with
      | Some (Reading p f) =>
          match set_instant l (now w) p f with
          | Some t => if Qle_bool t deadline then t else deadline
          | None => deadline
          end
      | _ => deadline
      end in
    modify (advance wake) ;;
    w' <- get ;;
    let r := flag l (animation w') in
    emit (Wait l timeout r) ;; ret r.

(** *** The methods *)

(** [os.path.exists(p)]: [os.stat(None)] raises [TypeError], which
    [exists] does not catch. *)
Definition os_path_exists (p : option string) : M bool :=
  match p with
  | None => raise (TypeError
      "stat: path should be string, bytes, os.PathLike or integer, not NoneType")
  | Some s => env <- ask ;; ret (path_exists env s)
  end.

(** [str(p)] of a path or of None *)
Definition str_of (p : option string) : string :=
  match p with Some s => s | None => "None" end.

Definition shift (t0 : Q) (x : Q * string) : Q * string := ((t0 + fst x)%Q, snd x).

Definition start : M bool :=
  w <- get ;;
  let self := animation w in
  found <- os_path_exists (script_path self) ;;
  if negb found then
    debug_log [Lit "ERROR: Animation script not found: "; PStr (str_of (script_path self))] ;;
    print_err [Lit "ERROR: Animation script not found: "; PStr (str_of (script_path self))] ;;
    ret false
  else
    debug_log [Lit "Starting animation: "; PStr (str_of (script_path self))] ;;
    env <- ask ;;
    emit (SpawnAnimation ["python3"; str_of (script_path self)]) ;;
    let fin := match anim_end env with
               | Some (te, k) => Some ((now w + te)%Q, k)
               | None => None
               end in
    let p := {| gone := match fin with
                        | Some (te, Eof) => Some te
                        | _ => None
                        end |} in
    let thread := Reading (map (shift (now w)) (anim_stdout env)) fin in
    modify (fun w => run_reader
      (set_animation (with_reader (Some thread) (with_process (Some p) (animation w))) w)) ;;
    ret true.

Definition wait_ready (timeout : Q) : M bool :=
  debug_log [Lit "Waiting for READY signal (timeout="; PSecs timeout; Lit "s)"] ;;
  result <- Event_wait Ready timeout ;;
  when (negb result) (debug_log [Lit "WARNING: Timeout waiting for READY signal"]) ;;
  ret result.

Definition wait_black (timeout : Q) : M bool :=
  debug_log [Lit "Waiting for BLACK signal (timeout="; PSecs timeout; Lit "s)"] ;;
  result <- Event_wait Black timeout ;;
  when (negb result) (debug_log [Lit "WARNING: Timeout waiting for BLACK signal"]) ;;
  ret result.

(** [process.poll() is None]: the process has not gone yet. *)
Definition alive (t : Q) (p : PopenObj) : bool :=
  match gone p with
  | Some te => negb (Qle_bool te t)
  | None => true
  end.

Definition is_running : M bool :=
  w <- get ;;
  match process (animation w) with
  | None => ret false
  | Some p => ret (alive (now w) p)
  end.

(** When the process is gone its pipe closes: what it had not written is
    lost and the reader meets end of file. *)
Definition cut_stream (te : Q) (r : Reader) : Reader :=
  match r with
  | Reading p f =>
      Reading (filter (fun x => Qle_bool (fst x) te) p)
              (match f with
               | Some (t, k) => if Qle_bool t te then f else Some (te, Eof)
               | None => Some (te, Eof)
               end)
  | Exited => Exited
  end.

Definition settle (te : Q) (a : AnimationProcess) : AnimationProcess :=
  with_reader (option_map (cut_stream te) (_reader_thread a))
    (with_process (Some {| gone := Some te |}) a).

(** [process.terminate()]: SIGTERM, which a process that is still there
    honours after [anim_sigterm], if at all. *)
Definition proc_terminate (p : PopenObj) : M unit :=
  emit ProcTerminate ;;
  env <- ask ;;
  w <- get ;;
  match anim_sigterm env with
  | Some d =>
      let te := (now w + d)%Q in
      when (alive (now w) p && alive te p)
        (modify (fun w => set_animation (settle te (animation w)) w))
  | None => ret tt
  end.

(** [process.wait(timeout)] *)
Definition proc_wait (timeout : Q) : M unit :=
  w <- get ;;
  let deadline := (now w + timeout)%Q in
  match process (animation w) with
  | Some {| gone := Some te |} =>
      if Qle_bool te deadline
      then modify (advance te) ;; emit (ProcWait timeout true)
      else modify (advance deadline) ;; emit (ProcWait timeout false) ;;
           raise TimeoutExpired
  | _ => modify (advance deadline) ;; emit (ProcWait timeout false) ;;
         raise TimeoutExpired
  end.

(** [process.kill()]: SIGKILL, which cannot be ignored.  The call returns
    at once; the process is gone [anim_sigkill] later (not before the call),
    unless it goes earlier by itself. *)
Definition proc_kill : M unit :=
  emit ProcKill ;;
  env <- ask ;;
  w <- get ;;
  match process (animation w) with
  | Some p =>
      let te := qmax (now w) (now w + anim_sigkill env)%Q in
      when (alive (now w) p && alive te p)
        (modify (fun w => run_reader (set_animation (settle te (animation w)) w)))
  | None => ret tt
  end.

Definition terminate : M unit :=
  w <- get ;;
  match process (animation w) with
  | Some p =>
      proc_terminate p ;;
      try_except (proc_wait 2)
        (fun e => match e with TimeoutExpired => Some proc_kill | _ => None end)
  | None => ret tt
  end.

(** ** The IPC client *)

(** [send_ipc]: the whole exchange with the compositor is one request; any
    exception is caught, logged and turned into [False]. *)
Definition send_ipc (method : string) : M bool :=
  env <- ask ;;
  w <- get ;;
  modify count_ipc ;;
  match ipc_reply env (ipc_calls w) method with
  | None => emit (Ipc method true) ;; ret true
  | Some e =>
      emit (Ipc method false) ;;
      debug_log [Lit "WARNING: IPC "; PStr method; Lit " failed: "; PStr e] ;;
      ret false
  end.

(** [for attempt in range(max_attempts)], with [todo] iterations left. *)
Fixpoint retry_from (method : string) (max_attempts : Z) (delay : Q)
  (attempt : Z) (todo : nat) : M bool :=
  match todo with
  | O =>
      debug_log [Lit "ERROR: "; PStr method; Lit " failed after ";
                 PInt max_attempts; Lit " attempts"] ;;
      ret false
  | S todo' =>
      ok <- send_ipc method ;;
      if ok then ret true
      else
        when (attempt <? max_attempts - 1)
          (debug_log [Lit "Retrying "; PStr method; Lit " in "; PSecs delay;
                      Lit "s (attempt "; PInt (attempt + 1); Lit "/";
                      PInt max_attempts; Lit ")"] ;;
           time_sleep delay) ;;
        retry_from method max_attempts delay (attempt + 1) todo'
  end.

(** Called everywhere with its defaults [max_attempts=5, delay=1.0]. *)
Definition send_ipc_with_retry (method : string) (max_attempts : Z) (delay : Q)
  : M bool :=
  retry_from method max_attempts delay 0 (Z.to_nat max_attempts).

Definition unfreeze_compositor (retry : bool) : M unit :=
  success <- (if retry then send_ipc_with_retry "screen-freeze/unfreeze" 5 1
              else send_ipc "screen-freeze/unfreeze") ;;
  when success (debug_log [Lit "Compositor unfrozen"]).

Definition show_cursor (retry : bool) : M unit :=
  success <- (if retry then send_ipc_with_retry "cursor-control/show" 5 1
              else send_ipc "cursor-control/show") ;;
  when success (debug_log [Lit "Cursor restored"]).

(** ** Animation discovery *)

(** The standalone fallback. *)
Definition _find_animations_dir (env : Env) : option string :=
  let env_ok := match environ_effects_dir env with
                | Some d => PyStr.truthy d && path_isdir env d
                | None => false
                end in
  if env_ok then environ_effects_dir env
  else if path_isdir env (xdg_dir env) then Some (xdg_dir env)
  else if path_isdir env (sibling_dir env) then Some (sibling_dir env)
  else None.

Definition get_animation_script (env : Env) (animation_name : string)
  : option string :=
  match discovery env with
  | Some _get_script =>
      match _get_script animation_name with
      | Some path => if PyStr.truthy path then Some path else None
      | None => None
      end
  | None =>
      match _find_animations_dir env with
      | Some animations_dir =>
          if PyStr.truthy animations_dir
          then Some (PyStr.path_join animations_dir [animation_name; "animate.py"])
          else None
      | None => None
      end
  end.

(** ** The action dispatcher *)

(** A dict with values that may be None; [.get] gives None for a missing
    key as well. *)
Fixpoint dict_get {V : Type} (d : list (string * option V)) (k : string)
  : option V :=
  match d with
  | [] => None
  | (k', v) :: rest => if (k =? k')%string then v else dict_get rest k
  end.

Definition POWER_COMMANDS : list (string * option (list string)) :=
  [ ("shutdown", Some ["sudo"; "-A"; "shutdown"; "-h"; "now"]);
    ("reboot", Some ["sudo"; "-A"; "reboot"]);
    ("logout", Some ["loginctl"; "terminate-session"; ""]);
    ("suspend", Some ["systemctl"; "suspend"]);
    ("hibernate", Some ["systemctl"; "hibernate"]);
    ("windows", Some ["sudo"; "-A"; "reboot"]);
    ("test", None) ].

Fixpoint first_token (lines : list string) : string :=
  match lines with
  | [] => ""
  | line :: rest =>
      match PyStr.split_ws line with
      | part :: _ => part
      | [] => first_token rest
      end
  end.

(** [get_session_id]: an exception of [subprocess.run] is swallowed. *)
Definition get_session_id : M string :=
  emit (Run ["loginctl"; "list-sessions"; "--no-legend"]) ;;
  env <- ask ;;
  match list_sessions env with
  | Some stdout => ret (first_token (PyStr.split_on PyStr.LF (PyStr.strip stdout)))
  | None => ret ""
  end.

(** ** The orchestration driver *)

(** The animation handle as the driver passes it around: a reference to the
    one object of the world. *)
Inductive handle := TheAnimation.

(** [if animation: animation.terminate()] *)
Definition terminate_if (animation : option handle) : M unit :=
  match animation with
  | Some _ => terminate
  | None => ret tt
  end.

(** [while True: time.sleep(1)], for as long as the fuel lasts. *)
Fixpoint hold_forever (fuel : nat) : M unit :=
  match fuel with
  | O => holding
  | S n => time_sleep 1 ;; hold_forever n
  end.

Definition is_in (x : string) (l : list string) : bool := existsb (String.eqb x) l.

Definition execute_power_action (fuel : nat) (action : string)
  (animation : option handle) (hold_time : Z) : M unit :=
  match dict_get POWER_COMMANDS action with
  | None =>
      debug_log [Lit "[TEST] Animation complete, waiting "; PInt hold_time;
                 Lit " seconds..."] ;;
      print [Lit "[TEST] Animation complete. Waiting "; PInt hold_time;
             Lit " seconds..."] ;;
      time_sleep_int hold_time ;;
      terminate_if animation ;;
      unfreeze_compositor false ;;
      show_cursor false ;;
      debug_log [Lit "[TEST] Done"] ;;
      print [Lit "[TEST] Done."]
  | Some cmd0 =>
      cmd <- (if (action =? "logout")%string then
                session_id <- get_session_id ;;
                if PyStr.truthy session_id then
                  debug_log [Lit "Logout: using session ID "; PStr session_id] ;;
                  ret (Some ["loginctl"; "terminate-session"; session_id])
                else
                  debug_log [Lit "ERROR: Could not determine session ID for logout"] ;;
                  print_err [Lit "ERROR: Could not determine session ID for logout"] ;;
                  terminate_if animation ;;
                  ret None
              else ret (Some cmd0)) ;;
      match cmd with
      | None => ret tt
      | Some cmd =>
          when (action =? "windows")%string
            (debug_log [Lit "Setting Windows boot entry..."] ;;
             emit (Run ["sudo"; "-A"; "efibootmgr"; "--bootnext"; "0003"]) ;;
             env <- ask ;;
             when (negb (fst (efibootmgr env) =? 0))
               (debug_log [Lit "WARNING: efibootmgr failed: ";
                           PStr (snd (efibootmgr env))] ;;
                print_err [Lit "WARNING: Could not set Windows boot entry"])) ;;
          debug_log [Lit "Executing power action: "; PArgv cmd] ;;
          print [Lit "Executing: "; PArgv cmd] ;;
          emit (Popen cmd) ;;
          if is_in action ["suspend"; "hibernate"] then
            debug_log [Lit "Waiting for resume from suspend/hibernate..."] ;;
            time_sleep 3 ;;
            terminate_if animation ;;
            unfreeze_compositor true ;;
            show_cursor true ;;
            debug_log [Lit "Resumed from suspend/hibernate, compositor unfrozen"]
          else
            debug_log [Lit "Holding until system shuts down..."] ;;
            hold_forever fuel
      end
  end.

Definition run_without_animation (action : string) (hold_time : Z) : M unit :=
  debug_log [Lit "Running without animation: "; PStr action] ;;
  print [Lit "Executing "; PStr action; Lit " (no animation)..."] ;;
  match dict_get POWER_COMMANDS action with
  | None =>
      debug_log [Lit "[TEST] No animation, waiting "; PInt hold_time;
                 Lit " seconds..."] ;;
      print [Lit "[TEST] No animation. Waiting "; PInt hold_time;
             Lit " seconds..."] ;;
      time_sleep_int hold_time ;;
      debug_log [Lit "[TEST] Done"] ;;
      print [Lit "[TEST] Done."]
  | Some cmd0 =>
      cmd <- (if (action =? "logout")%string then
                session_id <- get_session_id ;;
                if PyStr.truthy session_id then
                  ret (Some ["loginctl"; "terminate-session"; session_id])
                else
                  print_err [Lit "ERROR: Could not determine session ID for logout"] ;;
                  ret None
              else ret (Some cmd0)) ;;
      match cmd with
      | None => ret tt
      | Some cmd =>
          when (action =? "windows")%string
            (emit (Run ["sudo"; "-A"; "efibootmgr"; "--bootnext"; "0003"])) ;;
          debug_log [Lit "Executing: "; PArgv cmd] ;;
          emit (Run cmd)
      end
  end.

(** [main], from the parsed arguments on; its value is the exit code. *)
Definition main (fuel : nat) (action animation_name : string) (hold_time : Z)
  : M Z :=
  emit InstallHandlers ;;
  emit InitLog ;;
  debug_log [Lit "Starting power-manager: action="; PStr action;
             Lit ", animation="; PStr animation_name] ;;
  if (animation_name =? "none")%string then
    run_without_animation action hold_time ;;
    ret 0
  else
    print [Lit "[1/3] Starting "; PStr animation_name; Lit " animation..."] ;;
    env <- ask ;;
    let script_path := get_animation_script env animation_name in
    modify (set_animation (__init__ script_path)) ;;
    let animation := TheAnimation in
    started <- start ;;
    if negb started then
      print_err [Lit "ERROR: Failed to start animation"] ;;
      ret 1
    else
      print [Lit "[2/3] Waiting for overlay..."] ;;
      ready <- wait_ready 5 ;;
      when (negb ready)
        (print_err [Lit "WARNING: Animation did not signal READY, proceeding anyway"]) ;;
      print [Lit "[3/3] Animation playing..."] ;;
      black <- wait_black 30 ;;
      when (negb black)
        (print_err [Lit "WARNING: Animation did not signal BLACK, proceeding anyway"]) ;;
      print [Lit "Animation complete."] ;;
      debug_log [Lit "Executing power action..."] ;;
      execute_power_action fuel action (Some animation) hold_time ;;
      ret 0.

(** A world before anything has run. *)
Definition world0 : World :=
  {| now := 0; ipc_calls := 0; animation := __init__ None; reader_log := [] |}.

(** ** Operations on an animation handle, for statements about every
    sequence of them. *)

Inductive op :=
| OpStart
| OpWaitReady (timeout : Q)
| OpWaitBlack (timeout : Q)
| OpIsRunning
| OpTerminate
| OpElapse (t : Q).   (* time passes until instant t; the reader runs *)

Definition run_op (env : Env) (w : World) (o : op) : World :=
  match o with
  | OpStart => final (start env w)
  | OpWaitReady timeout => final (wait_ready timeout env w)
  | OpWaitBlack timeout => final (wait_black timeout env w)
  | OpIsRunning => final (is_running env w)
  | OpTerminate => final (terminate env w)
  | OpElapse t => advance t w
  end.

Definition run_ops (env : Env) (os : list op) (w : World) : World :=
  fold_left (run_op env) os w.

(** ** Projections of a trace *)

(** The programs launched on behalf of the power action (the animation
    itself is [SpawnAnimation]). *)
Fixpoint launched (t : list event) : list (list string) :=
  match t with
  | [] => []
  | Popen argv :: r => argv :: launched r
  | Run argv :: r => argv :: launched r
  | _ :: r => launched r
  end.

(** The trace without what is only logged or printed. *)
Fixpoint actions (t : list event) : list event :=
  match t with
  | [] => []
  | Debug _ :: r => actions r
  | Print _ :: r => actions r
  | PrintErr _ :: r => actions r
  | e :: r => e :: actions r
  end.

(** ** Vocabulary of the statements *)

Definition warn_timeout (l : latch) (r : bool) : list event :=
  if r then []
  else [Debug [Lit ("WARNING: Timeout waiting for " ++ sentinel_of l ++ " signal")]].

(** The three ways [terminate] can go. *)
Inductive terminate_trace : list event -> Prop :=
| TermNoProcess : terminate_trace []
| TermGraceful : terminate_trace [ProcTerminate; ProcWait 2 true]
| TermKilled : terminate_trace [ProcTerminate; ProcWait 2 false; ProcKill].

Definition warn_ipc (method e : string) : event :=
  Debug [Lit "WARNING: IPC "; PStr method; Lit " failed: "; PStr e].

Definition note_retry (method : string) (max_attempts : Z) (delay : Q)
  (attempt : Z) : event :=
  Debug [Lit "Retrying "; PStr method; Lit " in "; PSecs delay;
         Lit "s (attempt "; PInt (attempt + 1); Lit "/"; PInt max_attempts;
         Lit ")"].

(** What a retried request does, apart from logging: [j] failed attempts,
    each followed by a sleep, then a last attempt with the result. *)
Definition retry_actions (method : string) (j : nat) (r : bool) : list event :=
  List.concat (repeat [Ipc method false; Sleep 1] j) ++ [Ipc method r].

(** What the IPC cleanup does, apart from logging. *)
Definition ipc_actions (retry : bool) (method : string) (j : nat) (r : bool)
  : list event :=
  if retry then retry_actions method j r else [Ipc method r].

Definition LIST_SESSIONS : list string := ["loginctl"; "list-sessions"; "--no-legend"].
Definition EFIBOOTMGR : list string := ["sudo"; "-A"; "efibootmgr"; "--bootnext"; "0003"].
Definition NO_SESSION : text := [Lit "ERROR: Could not determine session ID for logout"].

(** The first three steps of [main]. *)
Definition preamble (action animation_name : string) : list event :=
  [InstallHandlers; InitLog;
   Debug [Lit "Starting power-manager: action="; PStr action;
          Lit ", animation="; PStr animation_name]].

(** What the driver prints when a wait timed out. *)
Definition warn_driver (l : latch) (r : bool) : list event :=
  if r then []
  else [PrintErr [Lit ("WARNING: Animation did not signal " ++ sentinel_of l
                       ++ ", proceeding anyway")]].

(** Steps 1 to 3 of [main] once the script is found, with the results of
    the two waits. *)
Definition handshake_trace (name path : string) (ready black : bool)
  : list event :=
  [Print [Lit "[1/3] Starting "; PStr name; Lit " animation..."];
   Debug [Lit "Starting animation: "; PStr path];
   SpawnAnimation ["python3"; path];
   Print [Lit "[2/3] Waiting for overlay..."];
   Debug [Lit "Waiting for READY signal (timeout="; PSecs 5; Lit "s)"];
   Wait Ready 5 ready]
  ++ warn_timeout Ready ready ++ warn_driver Ready ready
  ++ [Print [Lit "[3/3] Animation playing..."];
      Debug [Lit "Waiting for BLACK signal (timeout="; PSecs 30; Lit "s)"];
      Wait Black 30 black]
  ++ warn_timeout Black black ++ warn_driver Black black
  ++ [Print [Lit "Animation complete."];
      Debug [Lit "Executing power action..."]].

(** The exit code of [main] after [execute_power_action]. *)
Definition exit_of (r : outcome unit) : outcome Z :=
  match r with
  | Ret _ => Ret 0
  | Raise e => Raise e
  | Holding => Holding
  end.

Definition TEST_DONE : list event :=
  [Debug [Lit "[TEST] Done"]; Print [Lit "[TEST] Done."]].

(** [time.sleep] raises [e] for the integer [secs] asked at instant [t]. *)
Definition sleep_refusal (env : Env) (t : Q) (secs : Z) (e : exn) : Prop :=
  (e = OverflowError "timestamp too large to convert to C _PyTime_t"
   /\ (secs < - PYTIME_SECS_MAX \/ PYTIME_SECS_MAX < secs))
  \/ (e = ValueError "sleep length must be non-negative"
      /\ - PYTIME_SECS_MAX <= secs < 0)
  \/ (exists m, e = OSError m
                /\ 0 <= secs <= PYTIME_SECS_MAX
                /\ sleep_error env t secs = Some m).

(** ** Example environments and worlds *)

Definition FIRE : string := "/effects/fire/animate.py".

(** The animation is installed; it writes nothing, holds, and ignores
    SIGTERM; the compositor refuses the first two requests; there is no
    login session; the boot-entry helper fails. *)
Definition env_silent : Env :=
  {| path_exists := fun p => (p =? FIRE)%string;
     path_isdir := fun p => (p =? "/effects")%string;
     discovery := None;
     environ_effects_dir := Some "/effects";
     xdg_dir := "/home/user/.config/shutdown-effect/animations";
     sibling_dir := "/opt/shutdown-effect/animations";
     anim_stdout := [];
     anim_end := None;
     anim_sigterm := None;
     anim_sigkill := 1 # 1000;
     sleep_error := fun _ _ => None;
     ipc_reply := fun n _ => if (n <? 2)%nat then Some "Connection refused" else None;
     list_sessions := Some "";
     efibootmgr := (1, "EFI variables are not supported on this system") |}.

(** As [env_silent], but the animation prints a traceback and exits after
    one second. *)
Definition env_crash : Env :=
  {| path_exists := path_exists env_silent;
     path_isdir := path_isdir env_silent;
     discovery := None;
     environ_effects_dir := Some "/effects";
     xdg_dir := xdg_dir env_silent;
     sibling_dir := sibling_dir env_silent;
     anim_stdout := [((1#2)%Q, "Traceback (most recent call last):")];
     anim_end := Some (1%Q, Eof);
     anim_sigterm := None;
     anim_sigkill := 1 # 1000;
     sleep_error := fun _ _ => None;
     ipc_reply := fun _ _ => None;
     list_sessions := Some "c2 1000 user seat0 tty2";
     efibootmgr := (0, "") |}.

(** No animations directory anywhere: the discovery has nothing to give. *)
Definition env_bare : Env :=
  {| path_exists := fun _ => false;
     path_isdir := fun _ => false;
     discovery := None;
     environ_effects_dir := None;
     xdg_dir := xdg_dir env_silent;
     sibling_dir := sibling_dir env_silent;
     anim_stdout := [];
     anim_end := None;
     anim_sigterm := None;
     anim_sigkill := 1 # 1000;
     sleep_error := fun _ _ => None;
     ipc_reply := fun _ _ => None;
     list_sessions := Some "c2 1000 user seat0 tty2";
     efibootmgr := (0, "") |}.

(** The directory is there, the script of the animation is not. *)
Definition env_missing : Env :=
  {| path_exists := fun _ => false;
     path_isdir := path_isdir env_silent;
     discovery := None;
     environ_effects_dir := Some "/effects";
     xdg_dir := xdg_dir env_silent;
     sibling_dir := sibling_dir env_silent;
     anim_stdout := [];
     anim_end := None;
     anim_sigterm := None;
     anim_sigkill := 1 # 1000;
     sleep_error := fun _ _ => None;
     ipc_reply := fun _ _ => None;
     list_sessions := Some "c2 1000 user seat0 tty2";
     efibootmgr := (0, "") |}.

(** Two seconds after the spawn in [env_crash], before the reader has
    been scheduled. *)
Definition world_crashed : World :=
  {| now := 2;
     ipc_calls := 0;
     animation :=
       with_reader
         (Some (Reading [((1#2)%Q, "Traceback (most recent call last):")]
                        (Some (1%Q, Eof))))
         (with_process (Some {| gone := Some 1%Q |}) (__init__ (Some FIRE)));
     reader_log := [] |}.

(** The animation of [env_silent] just started. *)
Definition world_started : World :=
  final (start env_silent (set_animation (__init__ (Some FIRE)) world0)).

(** A handle whose ready latch is set. *)
Definition world_ready : World :=
  set_animation (with_ready (Event.set Event.new) (__init__ (Some FIRE))) world0.

Definition NBSP : ascii := ascii_of_nat 160.

(** As [env_silent], but the animation writes a progress line after one
    second and READY, behind a no-break space, after two; the session
    listing is indented by a no-break space. *)
Definition env_chatty : Env :=
  {| path_exists := path_exists env_silent;
     path_isdir := path_isdir env_silent;
     discovery := None;
     environ_effects_dir := Some "/effects";
     xdg_dir := xdg_dir env_silent;
     sibling_dir := sibling_dir env_silent;
     anim_stdout := [(1%Q, "loading"); (2%Q, String NBSP "READY")];
     anim_end := None;
     anim_sigterm := None;
     anim_sigkill := 1 # 1000;
     sleep_error := fun _ _ => None;
     ipc_reply := fun _ _ => None;
     list_sessions := Some (String NBSP "c2 1000 user seat0 tty2");
     efibootmgr := (0, "") |}.


(** ** More of the program, and the vocabulary of further statements *)

(** Some line of the list is, once stripped, the sentinel of latch [l]. *)
Definition has_line (l : latch) (lines : list string) : bool :=
  existsb (fun raw => (PyStr.strip raw =? sentinel_of l)%string) lines.

(** What [_read_signals] logs for a line. *)
Definition signal_note (raw : string) : text :=
  [Lit "Animation signal: "; PStr (PyStr.strip raw)].

(** [wait_ready] or [wait_black], by latch. *)
Definition wait_for (l : latch) : Q -> M bool :=
  match l with
  | Ready => wait_ready
  | Black => wait_black
  end.

(** The events of a wait with result [r]. *)
Definition wait_trace (l : latch) (timeout : Q) (r : bool) : list event :=
  [Debug [Lit ("Waiting for " ++ sentinel_of l ++ " signal (timeout=");
          PSecs timeout; Lit "s)"];
   Wait l timeout r] ++ warn_timeout l r.



(** The longest prefix of a string without a space character. *)
Fixpoint take_token (s : string) : string :=
  match s with
  | EmptyString => EmptyString
  | String c r => if PyStr.isspace c then EmptyString else String c (take_token r)
  end.

Fixpoint all_space (s : string) : bool :=
  match s with
  | EmptyString => true
  | String c r => PyStr.isspace c && all_space r
  end.

Fixpoint no_space (s : string) : bool :=
  match s with
  | EmptyString => true
  | String c r => negb (PyStr.isspace c) && no_space r
  end.

(** *** Listing the animations (the standalone fallback) and the choices
    of [--animation] *)

(** [sorted] on strings, by code points: insertion sort. *)
Fixpoint insert_sorted (x : string) (l : list string) : list string :=
  match l with
  | [] => [x]
  | y :: r => if String.leb x y then x :: l else y :: insert_sorted x r
  end.

Definition py_sorted (l : list string) : list string :=
  fold_right insert_sorted [] l.

(** The order of [sorted] on strings. *)
Definition str_le (a b : string) : Prop := String.leb a b = true.

(** [list_animations], with [os.listdir] as a parameter. *)
Definition list_animations (env : Env) (os_listdir : string -> list string)
  : list string :=
  match _find_animations_dir env with
  | Some animations_dir =>
      if negb (PyStr.truthy animations_dir) || negb (path_isdir env animations_dir)
      then []
      else py_sorted
             (filter (fun name =>
                        path_exists env
                          (PyStr.path_join animations_dir [name; "animate.py"]))
                     (os_listdir animations_dir))
  | None => []
  end.

(** [available + ["none"] if available else ["none"]] in [parse_args]. *)
Definition animation_choices (available : list string) : list string :=
  match available with
  | [] => ["none"]
  | _ => available ++ ["none"]
  end.

(** A directory name with its separator, as [os.path.join] completes it. *)
Definition ends_slash (a : string) : bool :=
  (substring (String.length a - 1) 1 a =? "/")%string.

Definition with_slash (d : string) : string :=
  if ends_slash d then d else (d ++ "/")%string.

Fixpoint no_slash (s : string) : bool :=
  match s with
  | EmptyString => true
  | String c r => negb (Ascii.eqb c "/") && no_slash r
  end.

(** *** What a run launches *)

(** The first whitespace-separated token of the session listing. *)
Definition session_token (env : Env) : string :=
  match list_sessions env with
  | Some stdout => hd "" (PyStr.split_ws stdout)
  | None => ""
  end.

(** The programs a run launches for [action], in order. *)
Definition power_launches (env : Env) (action : string) : list (list string) :=
  match dict_get POWER_COMMANDS action with
  | None => []
  | Some cmd =>
      if (action =? "logout")%string then
        LIST_SESSIONS ::
        (if PyStr.truthy (session_token env)
         then [["loginctl"; "terminate-session"; session_token env]]
         else [])
      else (if (action =? "windows")%string then [EFIBOOTMGR] else []) ++ [cmd]
  end.

(** Events of the path without animation: log, print, run, sleep. *)
Definition is_plain (e : event) : bool :=
  match e with
  | Debug _ | Print _ | PrintErr _ | Run _ | Sleep _ => true
  | _ => false
  end.

(** The actions that have a command. *)
Definition POWER_ACTIONS : list string :=
  ["shutdown"; "reboot"; "logout"; "suspend"; "hibernate"; "windows"].

(** *** The bytes of an IPC request: [json.dumps], [encode], [to_bytes] *)

Module Wire.

Definition QUOTE : ascii := ascii_of_nat 34.

Definition hex_digit (n : nat) : ascii :=
  nth n (list_ascii_of_string "0123456789abcdef") "0"%char.

(** [json.dumps] of one character of a string (with [ensure_ascii], the
    default): the short escapes, the printable ASCII characters as they
    are, [\u00xx] for the others. *)
Definition escape_char (c : ascii) : string :=
  let n := nat_of_ascii c in
  if (n =? 34)%nat then String "\" (String QUOTE "")
  else if (n =? 92)%nat then "\\"
  else if (n =? 8)%nat then "\b"
  else if (n =? 12)%nat then "\f"
  else if (n =? 10)%nat then "\n"
  else if (n =? 13)%nat then "\r"
  else if (n =? 9)%nat then "\t"
  else if ((32 <=? n) && (n <=? 126))%nat then String c ""
  else ("\u00" ++ String (hex_digit (n / 16)) (String (hex_digit (n mod 16)) ""))%string.

Fixpoint escape (s : string) : string :=
  match s with
  | EmptyString => EmptyString
  | String c r => (escape_char c ++ escape r)%string
  end.

Definition quoted (s : string) : string := String QUOTE (s ++ String QUOTE "").

(** [json.dumps({"method": method, "data": {}})] *)
Definition dumps_request (method : string) : string :=
  ("{" ++ quoted "method" ++ ": " ++ quoted (escape method) ++ ", "
   ++ quoted "data" ++ ": {}}")%string.

Definition byte_of_N (n : N) : byte :=
  match Byte.of_N n with
  | Some b => b
  | None => x00
  end.

(** [n.to_bytes(4, byteorder='little')]; None is its [OverflowError]. *)
Definition to_bytes4_le (n : N) : option (list byte) :=
  if (n <? 2 ^ 32)%N
  then Some [byte_of_N (n mod 256); byte_of_N (n / 256 mod 256);
             byte_of_N (n / 65536 mod 256); byte_of_N (n / 16777216 mod 256)]
  else None.

(** What [send_ipc] hands to [sock.client.send]:
    [len(msg).to_bytes(4, byteorder='little') + msg]. *)
Definition frame (method : string) : option (list byte) :=
  let msg := list_byte_of_string (dumps_request method) in
  match to_bytes4_le (N.of_nat (List.length msg)) with
  | Some prefix => Some (prefix ++ msg)
  | None => None
  end.

(** The receiving side: the length prefix read back, and a JSON string
    literal read from after its opening quote to its closing quote. *)
Definition of_bytes_le (bs : list byte) : N :=
  fold_right (fun b acc => (Byte.to_N b + 256 * acc)%N) 0%N bs.

Definition unhex (c : ascii) : option nat :=
  let n := nat_of_ascii c in
  if ((48 <=? n) && (n <=? 57))%nat then Some (n - 48)%nat
  else if ((97 <=? n) && (n <=? 102))%nat then Some (n - 87)%nat
  else if ((65 <=? n) && (n <=? 70))%nat then Some (n - 55)%nat
  else None.

Definition unescape_short (e : ascii) : option ascii :=
  let n := nat_of_ascii e in
  if (n =? 34)%nat then Some QUOTE
  else if (n =? 92)%nat then Some "\"%char
  else if (n =? 47)%nat then Some "/"%char
  else if (n =? 98)%nat then Some (ascii_of_nat 8)
  else if (n =? 102)%nat then Some (ascii_of_nat 12)
  else if (n =? 110)%nat then Some (ascii_of_nat 10)
  else if (n =? 114)%nat then Some (ascii_of_nat 13)
  else if (n =? 116)%nat then Some (ascii_of_nat 9)
  else None.

Fixpoint read_string (s : string) : option (string * string) :=
  match s with
  | EmptyString => None
  | String c r =>
      if Ascii.eqb c QUOTE then Some (EmptyString, r)
      else if Ascii.eqb c "\" then
        match r with
        | String e r1 =>
            if Ascii.eqb e "u" then
              match r1 with
              | String h1 (String h2 (String h3 (String h4 r2))) =>
                  match unhex h1, unhex h2, unhex h3, unhex h4 with
                  | Some 0%nat, Some 0%nat, Some a, Some b =>
                      match read_string r2 with
                      | Some (v, rest) =>
                          Some (String (ascii_of_nat (16 * a + b)) v, rest)
                      | None => None
                      end
                  | _, _, _, _ => None
                  end
              | _ => None
              end
            else
              match unescape_short e, read_string r1 with
              | Some x, Some (v, rest) => Some (String x v, rest)
              | _, _ => None
              end
        | EmptyString => None
        end
      else
        match read_string r with
        | Some (v, rest) => Some (String c v, rest)
        | None => None
        end
  end.

Fixpoint drop_prefix (p s : string) : option string :=
  match p with
  | EmptyString => Some s
  | String a p' =>
      match s with
      | String b s' => if Ascii.eqb a b then drop_prefix p' s' else None
      | EmptyString => None
      end
  end.

(** The method of a request, read back from its text, and what follows. *)
Definition read_method (msg : string) : option (string * string) :=
  match drop_prefix ("{" ++ quoted "method" ++ ": " ++ String QUOTE "") msg with
  | Some r => read_string r
  | None => None
  end.

Definition printable (c : ascii) : bool :=
  ((32 <=? nat_of_ascii c) && (nat_of_ascii c <=? 126))%nat.

Fixpoint all_printable (s : string) : bool :=
  match s with
  | EmptyString => true
  | String c r => printable c && all_printable r
  end.

End Wire.

(** * Properties *)

(** ** The reader thread and the latches *)

Section Reader.

Lemma read_line_keeps l raw a :
  flag l a = true -> flag l (fst (read_line raw a)) = true.
Proof.
  unfold read_line; simpl.
  destruct (PyStr.strip raw =? "READY")%string;
    [| destruct (PyStr.strip raw =? "BLACK")%string];
    destruct l; simpl; auto.
Qed.

Lemma read_line_reader raw a :
  _reader_thread (fst (read_line raw a)) = _reader_thread a
  /\ process (fst (read_line raw a)) = process a
  /\ script_path (fst (read_line raw a)) = script_path a.
Proof.
  unfold read_line; simpl.
  destruct (PyStr.strip raw =? "READY")%string;
    [| destruct (PyStr.strip raw =? "BLACK")%string]; simpl; auto.
Qed.

Lemma read_finish_sets k a l : flag l (fst (read_finish k a)) = true.
Proof. destruct l; reflexivity. Qed.

Lemma read_loop_cons raw rest a :
  read_loop (raw :: rest) a =
    (fst (read_loop rest (fst (read_line raw a))),
     snd (read_line raw a) ++ snd (read_loop rest (fst (read_line raw a)))).
Proof.
  cbn [read_loop]. destruct (read_line raw a) as [a1 m1]. cbn [fst snd].
  destruct (read_loop rest a1); reflexivity.
Qed.

Lemma drain_cons t tl raw rest f a :
  drain t ((tl, raw) :: rest) f a =
    if Qle_bool tl t
    then (fst (drain t rest f (fst (read_line raw a))),
          snd (read_line raw a) ++ snd (drain t rest f (fst (read_line raw a))))
    else (with_reader (Some (Reading ((tl, raw) :: rest) f)) a, []).
Proof.
  cbn [drain]. destruct (Qle_bool tl t); [| reflexivity].
  destruct (read_line raw a) as [a1 m1]. cbn [fst snd].
  destruct (drain t rest f a1); reflexivity.
Qed.

Lemma read_loop_keeps l lines : forall a,
  flag l a = true -> flag l (fst (read_loop lines a)) = true.
Proof.
  induction lines as [| raw rest IH]; intros a H; [exact H |].
  rewrite read_loop_cons. cbn [fst]. apply IH, read_line_keeps, H.
Qed.

(** The thread function sets both latches whatever it has read and
    however its input ended. *)
Lemma _read_signals_sets lines k a l :
  flag l (fst (_read_signals lines k a)) = true.
Proof.
  unfold _read_signals.
  destruct (read_loop lines a) as [a1 m1]. simpl.
  destruct l; reflexivity.
Qed.

Lemma drain_keeps l t p f : forall a,
  flag l a = true -> flag l (fst (drain t p f a)) = true.
Proof.
  induction p as [| [tl raw] rest IH]; intros a H.
  - simpl. destruct f as [[te k] |]; [destruct (Qle_bool te t) |]; simpl;
      destruct l; simpl in *; auto.
  - rewrite drain_cons. destruct (Qle_bool tl t); cbn [fst].
    + apply IH, read_line_keeps, H.
    + destruct l; simpl in *; auto.
Qed.

Lemma drain_exited t p f : forall a,
  _reader_thread (fst (drain t p f a)) = Some Exited ->
  forall l, flag l (fst (drain t p f a)) = true.
Proof.
  induction p as [| [tl raw] rest IH]; intros a H l.
  - simpl in *.
    destruct f as [[te k] |]; [destruct (Qle_bool te t) |]; simpl in *;
      try discriminate; destruct l; reflexivity.
  - rewrite drain_cons in *. destruct (Qle_bool tl t); cbn [fst] in *.
    + apply IH, H.
    + simpl in H. discriminate.
Qed.

(** When the timed reader leaves its loop, it has done what
    [_read_signals] does on the whole output. *)
Lemma drain_is_read_signals t p f : forall a,
  _reader_thread (fst (drain t p f a)) = Some Exited ->
  exists te k, f = Some (te, k) /\
  drain t p f a =
    (with_reader (Some Exited) (fst (_read_signals (map snd p) k a)),
     snd (_read_signals (map snd p) k a)).
Proof.
  unfold _read_signals.
  induction p as [| [tl raw] rest IH]; intros a H.
  - simpl in *. destruct f as [[te k] |]; [| discriminate].
    exists te, k. split; [reflexivity |].
    destruct (Qle_bool te t); simpl in *; [reflexivity | discriminate].
  - rewrite drain_cons in *.
    destruct (Qle_bool tl t); cbn [fst] in *; [| discriminate].
    destruct (IH _ H) as (te & k & Hf & E). exists te, k.
    split; [exact Hf |].
    cbn [map snd]. rewrite read_loop_cons. rewrite E. cbn [fst snd].
    destruct (read_loop (map snd rest) (fst (read_line raw a))) as [a3 m3].
    cbn [fst snd]. f_equal.
Qed.

Lemma drain_process t p f : forall a,
  process (fst (drain t p f a)) = process a.
Proof.
  induction p as [| [tl raw] rest IH]; intros a.
  - simpl. destruct f as [[te k] |]; [destruct (Qle_bool te t) |]; reflexivity.
  - rewrite drain_cons. destruct (Qle_bool tl t); cbn [fst]; [| reflexivity].
    rewrite IH. apply read_line_reader.
Qed.

End Reader.

(** ** How the operations move the world *)

Section Frames.

Lemma run_reader_keeps l w :
  flag l (animation w) = true -> flag l (animation (run_reader w)) = true.
Proof.
  unfold run_reader. intros H.
  destruct (_reader_thread (animation w)) as [[p f |] |]; auto.
  pose proof (drain_keeps l (now w) p f (animation w) H) as K.
  destruct (drain (now w) p f (animation w)); exact K.
Qed.

Lemma run_reader_exited w p f :
  _reader_thread (animation w) = Some (Reading p f) ->
  _reader_thread (animation (run_reader w)) = Some Exited ->
  forall l, flag l (animation (run_reader w)) = true.
Proof.
  unfold run_reader. intros E. rewrite E.
  pose proof (drain_exited (now w) p f (animation w)) as K.
  destruct (drain (now w) p f (animation w)); exact K.
Qed.

Lemma run_reader_now w : now (run_reader w) = now w.
Proof.
  unfold run_reader.
  destruct (_reader_thread (animation w)) as [[p f |] |]; auto.
  destruct (drain (now w) p f (animation w)); reflexivity.
Qed.

Lemma run_reader_ipc w : ipc_calls (run_reader w) = ipc_calls w.
Proof.
  unfold run_reader.
  destruct (_reader_thread (animation w)) as [[p f |] |]; auto.
  destruct (drain (now w) p f (animation w)); reflexivity.
Qed.

Lemma run_reader_process w :
  process (animation (run_reader w)) = process (animation w).
Proof.
  unfold run_reader.
  destruct (_reader_thread (animation w)) as [[p f |] |]; auto.
  pose proof (drain_process (now w) p f (animation w)) as K.
  destruct (drain (now w) p f (animation w)); exact K.
Qed.

Lemma advance_keeps l t w :
  flag l (animation w) = true -> flag l (animation (advance t w)) = true.
Proof. intros H. unfold advance. apply run_reader_keeps. exact H. Qed.

Lemma advance_ipc t w : ipc_calls (advance t w) = ipc_calls w.
Proof. unfold advance. now rewrite run_reader_ipc. Qed.

Lemma advance_now t w : now (advance t w) = qmax (now w) t.
Proof. unfold advance. now rewrite run_reader_now. Qed.

Lemma settle_keeps l te a : flag l (settle te a) = flag l a.
Proof. destruct l; reflexivity. Qed.

(** [Event.wait] on a latch that is set: immediate, nothing moves. *)
Lemma Event_wait_set l timeout env w :
  flag l (animation w) = true ->
  Event_wait l timeout env w = (Ret true, w, [Wait l timeout true]).
Proof.
  intros H. unfold Event_wait, bind, get. cbn. rewrite H. reflexivity.
Qed.

(** [Event.wait] always returns, with the flag as it is on return. *)
Lemma Event_wait_returns l timeout env w :
  exists w',
    Event_wait l timeout env w
      = (Ret (flag l (animation w')), w', [Wait l timeout (flag l (animation w'))])
    /\ (forall l', flag l' (animation w) = true -> flag l' (animation w') = true).
Proof.
  unfold Event_wait, bind, get. cbn.
  destruct (flag l (animation w)) eqn:H.
  - exists w. cbn. rewrite H. auto.
  - cbn. eexists. split; [reflexivity |].
    intros l' H'. now apply advance_keeps.
Qed.

End Frames.

Section Methods.

Arguments Event_wait : simpl never.
Arguments advance : simpl never.
Arguments run_reader : simpl never.
Arguments flag : simpl never.

Lemma wait_ready_run timeout env w :
  exists w',
    wait_ready timeout env w
      = (Ret (flag Ready (animation w')), w',
         [Debug [Lit "Waiting for READY signal (timeout="; PSecs timeout; Lit "s)"];
          Wait Ready timeout (flag Ready (animation w'))]
         ++ warn_timeout Ready (flag Ready (animation w')))
    /\ (forall l, flag l (animation w) = true -> flag l (animation w') = true)
    /\ (flag Ready (animation w) = true -> w' = w).
Proof.
  destruct (Event_wait_returns Ready timeout env w) as (w' & E & K).
  destruct (flag Ready (animation w)) eqn:F.
  - exists w. rewrite (Event_wait_set Ready timeout env w F) in E.
    unfold wait_ready, bind, debug_log, emit. cbn.
    rewrite (Event_wait_set Ready timeout env w F). cbn. rewrite F. cbn. auto.
  - exists w'. unfold wait_ready, bind, debug_log, emit. cbn. rewrite E.
    destruct (flag Ready (animation w')); cbn; repeat split; auto; discriminate.
Qed.

Lemma wait_black_run timeout env w :
  exists w',
    wait_black timeout env w
      = (Ret (flag Black (animation w')), w',
         [Debug [Lit "Waiting for BLACK signal (timeout="; PSecs timeout; Lit "s)"];
          Wait Black timeout (flag Black (animation w'))]
         ++ warn_timeout Black (flag Black (animation w')))
    /\ (forall l, flag l (animation w) = true -> flag l (animation w') = true)
    /\ (flag Black (animation w) = true -> w' = w).
Proof.
  destruct (Event_wait_returns Black timeout env w) as (w' & E & K).
  destruct (flag Black (animation w)) eqn:F.
  - exists w. rewrite (Event_wait_set Black timeout env w F) in E.
    unfold wait_black, bind, debug_log, emit. cbn.
    rewrite (Event_wait_set Black timeout env w F). cbn. rewrite F. cbn. auto.
  - exists w'. unfold wait_black, bind, debug_log, emit. cbn. rewrite E.
    destruct (flag Black (animation w')); cbn; repeat split; auto; discriminate.
Qed.

Lemma qmax_plus_2 q : qmax q (q + 2) = (q + 2)%Q.
Proof.
  unfold qmax.
  assert (H : Qle_bool q (q + 2) = true).
  { apply Qle_bool_iff. rewrite <- (Qplus_0_r q) at 1.
    apply Qplus_le_compat; [apply Qle_refl | discriminate]. }
  now rewrite H.
Qed.

Lemma bind_eq {A B} (m : M A) (k : A -> M B) env w :
  bind m k env w =
    match m env w with
    | (Ret a, w1, t1) =>
        match k a env w1 with (r, w2, t2) => (r, w2, t1 ++ t2) end
    | (Raise e, w1, t1) => (Raise e, w1, t1)
    | (Holding, w1, t1) => (Holding, w1, t1)
    end.
Proof. reflexivity. Qed.

Lemma proc_terminate_run p env w :
  exists w1,
    proc_terminate p env w = (Ret tt, w1, [ProcTerminate])
    /\ now w1 = now w
    /\ (forall l, flag l (animation w1) = flag l (animation w))
    /\ ipc_calls w1 = ipc_calls w.
Proof.
  unfold proc_terminate, bind, emit, ask, get, when, modify, ret. cbn.
  destruct (anim_sigterm env) as [d |];
    [destruct (alive (now w) p && alive (now w + d) p) |];
    cbn; eexists; (split; [reflexivity |]); repeat split; auto;
    intros []; reflexivity.
Qed.

Lemma proc_wait_run timeout env w :
  (exists w2,
     proc_wait timeout env w = (Ret tt, w2, [ProcWait timeout true])
     /\ (forall l, flag l (animation w) = true -> flag l (animation w2) = true)
     /\ ipc_calls w2 = ipc_calls w)
  \/ proc_wait timeout env w
       = (Raise TimeoutExpired, advance (now w + timeout) w,
          [ProcWait timeout false]).
Proof.
  unfold proc_wait, bind, emit, get, modify, raise. cbn.
  destruct (process (animation w)) as [[[te |]] |]; cbn; auto.
  destruct (Qle_bool te (now w + timeout)); cbn; auto.
  left. eexists. split; [reflexivity |]. split.
  - intros l. apply advance_keeps.
  - apply advance_ipc.
Qed.

Lemma proc_kill_run env w :
  exists w3,
    proc_kill env w = (Ret tt, w3, [ProcKill])
    /\ now w3 = now w
    /\ (forall l, flag l (animation w) = true -> flag l (animation w3) = true)
    /\ ipc_calls w3 = ipc_calls w.
Proof.
  unfold proc_kill, bind, emit, ask, get, when, modify, ret. cbn.
  destruct (process (animation w)) as [p |];
    [destruct (alive (now w) p
               && alive (qmax (now w) (now w + anim_sigkill env)) p) |];
    cbn; eexists; (split; [reflexivity |]); repeat split; auto.
  - now rewrite run_reader_now.
  - intros l H. apply run_reader_keeps. cbn. now rewrite settle_keeps.
  - now rewrite run_reader_ipc.
Qed.

Lemma terminate_run env w :
  exists w' t,
    terminate env w = (Ret tt, w', t)
    /\ terminate_trace t
    /\ (process (animation w) = None -> w' = w /\ t = [])
    /\ (process (animation w) <> None -> t <> [])
    /\ (In ProcKill t ->
        t = [ProcTerminate; ProcWait 2 false; ProcKill] /\ now w' = (now w + 2)%Q)
    /\ (forall l, flag l (animation w) = true -> flag l (animation w') = true)
    /\ ipc_calls w' = ipc_calls w.
Proof.
  unfold terminate. rewrite bind_eq. cbn [get].
  destruct (process (animation w)) as [p |] eqn:P.
  2:{ exists w, []. cbn. repeat split; auto using TermNoProcess; contradiction. }
  rewrite bind_eq.
  destruct (proc_terminate_run p env w) as (w1 & E1 & N1 & F1 & I1).
  rewrite E1. unfold try_except.
  destruct (proc_wait_run 2 env w1) as [(w2 & E2 & F2 & I2) | E2]; rewrite E2.
  - exists w2, [ProcTerminate; ProcWait 2 true]. cbn.
    repeat split; auto using TermGraceful; try discriminate.
    + destruct H as [H | [H | []]]; discriminate.
    + destruct H as [H | [H | []]]; discriminate.
    + intros l H. apply F2. now rewrite F1.
    + congruence.
  - destruct (proc_kill_run env (advance (now w1 + 2) w1))
      as (w3 & E3 & N3 & F3 & I3).
    rewrite E3. exists w3, [ProcTerminate; ProcWait 2 false; ProcKill]. cbn.
    repeat split; auto using TermKilled; try discriminate.
    + rewrite N3, advance_now, N1. apply qmax_plus_2.
    + intros l H. apply F3, advance_keeps. now rewrite F1.
    + rewrite I3, advance_ipc. exact I1.
Qed.

Lemma is_running_run env w :
  exists r, is_running env w = (Ret r, w, [])
            /\ (process (animation w) = None -> r = false).
Proof.
  unfold is_running. rewrite bind_eq. cbn [get].
  destruct (process (animation w)); cbn; eexists; split; eauto; discriminate.
Qed.

(** [start]: raises on a missing path, refuses a path that does not
    exist, and otherwise spawns; the latches are not touched downwards. *)
Lemma start_run env w :
  match script_path (animation w) with
  | None =>
      start env w
        = (Raise (TypeError
             "stat: path should be string, bytes, os.PathLike or integer, not NoneType"),
           w, [])
  | Some path =>
      if path_exists env path
      then exists w',
             start env w
               = (Ret true, w',
                  [Debug [Lit "Starting animation: "; PStr path];
                   SpawnAnimation ["python3"; path]])
             /\ process (animation w') <> None
             /\ (forall l, flag l (animation w) = true ->
                           flag l (animation w') = true)
             /\ ipc_calls w' = ipc_calls w
      else start env w
             = (Ret false, w,
                [Debug [Lit "ERROR: Animation script not found: "; PStr path];
                 PrintErr [Lit "ERROR: Animation script not found: "; PStr path]])
  end.
Proof.
  unfold start. rewrite bind_eq. cbn [get].
  destruct (script_path (animation w)) as [path |] eqn:S; [| reflexivity].
  rewrite bind_eq. cbn [os_path_exists]. rewrite bind_eq. cbn [ask ret].
  destruct (path_exists env path); cbn [negb]; [| reflexivity].
  cbn. eexists. split; [reflexivity |]. repeat split.
  - rewrite run_reader_process. discriminate.
  - intros l H. apply run_reader_keeps. destruct l; exact H.
  - now rewrite run_reader_ipc.
Qed.

End Methods.

Section Handle.

Arguments flag : simpl never.

Lemma run_op_keeps env o w l :
  flag l (animation w) = true -> flag l (animation (run_op env w o)) = true.
Proof.
  intros H. destruct o; cbn [run_op].
  - pose proof (start_run env w) as K.
    destruct (script_path (animation w)) as [path |].
    + destruct (path_exists env path).
      * destruct K as (w' & E & _ & F & _). rewrite E. cbn. auto.
      * rewrite K. exact H.
    + rewrite K. exact H.
  - destruct (wait_ready_run timeout env w) as (w' & E & F & _).
    rewrite E. cbn. auto.
  - destruct (wait_black_run timeout env w) as (w' & E & F & _).
    rewrite E. cbn. auto.
  - destruct (is_running_run env w) as (r & E & _). rewrite E. exact H.
  - destruct (terminate_run env w) as (w' & t & E & _ & _ & _ & _ & F & _).
    rewrite E. cbn. auto.
  - now apply advance_keeps.
Qed.

Lemma run_ops_keeps env os : forall w l,
  flag l (animation w) = true -> flag l (animation (run_ops env os w)) = true.
Proof.
  induction os as [| o os IH]; intros w l H; [exact H |].
  cbn. apply IH, run_op_keeps, H.
Qed.

Lemma wait_ready_set timeout env w :
  flag Ready (animation w) = true ->
  wait_ready timeout env w
    = (Ret true, w,
       [Debug [Lit "Waiting for READY signal (timeout="; PSecs timeout; Lit "s)"];
        Wait Ready timeout true]).
Proof.
  intros H. destruct (wait_ready_run timeout env w) as (w' & E & _ & S).
  rewrite (S H) in E. rewrite E, H. reflexivity.
Qed.

Lemma wait_black_set timeout env w :
  flag Black (animation w) = true ->
  wait_black timeout env w
    = (Ret true, w,
       [Debug [Lit "Waiting for BLACK signal (timeout="; PSecs timeout; Lit "s)"];
        Wait Black timeout true]).
Proof.
  intros H. destruct (wait_black_run timeout env w) as (w' & E & _ & S).
  rewrite (S H) in E. rewrite E, H. reflexivity.
Qed.

(** The timed reader leaves its loop once the whole output is readable. *)
Lemma drain_exits t te k p : forall a,
  Forall (fun x => Qle_bool (fst x) t = true) p ->
  Qle_bool te t = true ->
  _reader_thread (fst (drain t p (Some (te, k)) a)) = Some Exited.
Proof.
  induction p as [| [tl raw] rest IH]; intros a Hp Ht.
  - simpl. rewrite Ht. reflexivity.
  - rewrite drain_cons. inversion Hp as [| x xs Hx Hrest]; subst.
    cbn [fst] in Hx. rewrite Hx. cbn [fst]. now apply IH.
Qed.

(** *** Waits in progress when the output ends *)

Lemma qmax_l a b : (a <= qmax a b)%Q.
Proof.
  unfold qmax. destruct (Qle_bool a b) eqn:E.
  - now apply Qle_bool_iff.
  - apply Qle_refl.
Qed.

Lemma qmax_r a b : (b <= qmax a b)%Q.
Proof.
  unfold qmax. destruct (Qle_bool a b) eqn:E.
  - apply Qle_refl.
  - apply Qlt_le_weak, Qnot_le_lt. intros H.
    apply Qle_bool_iff in H. congruence.
Qed.

Lemma qmax_lub a b x : (a <= x)%Q -> (b <= x)%Q -> (qmax a b <= x)%Q.
Proof. unfold qmax. destruct (Qle_bool a b); auto. Qed.

Lemma qmax_absorb a b : (a <= b)%Q -> qmax a b = b.
Proof.
  intros H. unfold qmax. apply Qle_bool_iff in H. now rewrite H.
Qed.

Lemma read_line_sets l raw a :
  PyStr.strip raw = sentinel_of l -> flag l (fst (read_line raw a)) = true.
Proof.
  intros S. unfold read_line. rewrite S. destruct l; reflexivity.
Qed.

(** [set_instant] is the instant at which the timed reader raises the
    latch: draining up to it finds the latch set. *)
Lemma set_instant_sound l p f : forall t0 t a,
  set_instant l t0 p f = Some t ->
  (t0 <= t)%Q /\ flag l (fst (drain t p f a)) = true.
Proof.
  induction p as [| [tl raw] rest IH]; intros t0 t a H.
  - cbn in H. destruct f as [[te k] |]; [| discriminate].
    injection H as <-. split; [apply qmax_l |].
    cbn. pose proof (qmax_r t0 te) as R. apply Qle_bool_iff in R.
    rewrite R. cbn. destruct l; reflexivity.
  - cbn [set_instant] in H. rewrite drain_cons.
    destruct (PyStr.strip raw =? sentinel_of l)%string eqn:S.
    + injection H as <-. split; [apply qmax_l |].
      pose proof (qmax_r t0 tl) as R. apply Qle_bool_iff in R. rewrite R.
      cbn [fst]. apply drain_keeps, read_line_sets.
      now apply String.eqb_eq.
    + destruct (IH _ _ (fst (read_line raw a)) H) as [L F].
      split; [eapply Qle_trans; [apply qmax_l | exact L] |].
      assert (R : (tl <= t)%Q) by (eapply Qle_trans; [apply qmax_r | exact L]).
      apply Qle_bool_iff in R. rewrite R. exact F.
Qed.

(** When the output ends, the latch is raised by then at the latest. *)
Lemma set_instant_bound l te k p : forall t0 x,
  Forall (fun y => Qle_bool (fst y) te = true) p ->
  (t0 <= x)%Q -> (te <= x)%Q ->
  exists t, set_instant l t0 p (Some (te, k)) = Some t /\ (t <= x)%Q.
Proof.
  induction p as [| [tl raw] rest IH]; intros t0 x Hp H0 He.
  - cbn. eexists. split; [reflexivity |]. now apply qmax_lub.
  - inversion Hp as [| y ys Hy Hrest]; subst. cbn [fst] in Hy.
    apply Qle_bool_iff in Hy.
    assert (H1 : (qmax t0 tl <= x)%Q)
      by (apply qmax_lub; [exact H0 | eapply Qle_trans; eauto]).
    cbn [set_instant].
    destruct (PyStr.strip raw =? sentinel_of l)%string.
    + eexists. split; [reflexivity | exact H1].
    + now apply IH.
Qed.

(** A wait that is in progress when the output ends returns True: the
    caller is released at the end of the output, before the timeout. *)
Lemma Event_wait_released l timeout env w p te k :
  _reader_thread (animation w) = Some (Reading p (Some (te, k))) ->
  Forall (fun x => Qle_bool (fst x) te = true) p ->
  Qle_bool 0 timeout = true ->
  Qle_bool te (now w + timeout) = true ->
  exists w', Event_wait l timeout env w = (Ret true, w', [Wait l timeout true])
             /\ (now w' <= now w + timeout)%Q.
Proof.
  intros R Hp H0 He.
  apply Qle_bool_iff in H0. apply Qle_bool_iff in He.
  assert (Hn : (now w <= now w + timeout)%Q).
  { rewrite <- (Qplus_0_r (now w)) at 1.
    apply Qplus_le_compat; [apply Qle_refl | exact H0]. }
  unfold Event_wait. rewrite bind_eq. cbn [get].
  destruct (flag l (animation w)) eqn:F.
  - exists w. split; [reflexivity | exact Hn].
  - rewrite R.
    destruct (set_instant_bound l te k p (now w) (now w + timeout)%Q Hp Hn He)
      as (t & S & B).
    rewrite S. apply Qle_bool_iff in B. rewrite B.
    destruct (set_instant_sound l p (Some (te, k)) (now w) t (animation w) S)
      as [L D].
    assert (A : flag l (animation (advance t w)) = true).
    { unfold advance, run_reader. rewrite (qmax_absorb _ _ L).
      cbn [animation set_now now]. rewrite R.
      destruct (drain t p (Some (te, k)) (animation w)) as [a ms].
      exact D. }
    exists (advance t w). split.
    + unfold bind, modify, get, emit, ret. cbn. rewrite A. reflexivity.
    + rewrite advance_now, (qmax_absorb _ _ L). now apply Qle_bool_iff.
Qed.

Lemma wait_ready_result timeout env w w' t :
  Event_wait Ready timeout env w = (Ret true, w', t) ->
  result (wait_ready timeout env w) = Ret true
  /\ final (wait_ready timeout env w) = w'.
Proof.
  intros E. unfold wait_ready. rewrite bind_eq. cbn [debug_log emit].
  rewrite bind_eq, E. split; reflexivity.
Qed.

Lemma wait_black_result timeout env w w' t :
  Event_wait Black timeout env w = (Ret true, w', t) ->
  result (wait_black timeout env w) = Ret true
  /\ final (wait_black timeout env w) = w'.
Proof.
  intros E. unfold wait_black. rewrite bind_eq. cbn [debug_log emit].
  rewrite bind_eq, E. split; reflexivity.
Qed.

(** C1. When the output of the animation subprocess ends (end of file
    because the process exited, or an exception while reading), whatever
    it contained: a wait whose timeout reaches the end of the output
    returns True no later than that timeout; once the end has been read,
    the reader thread, leaving its loop, has done what [_read_signals] does
    and both latches are set; and from then on, after any further
    operations on the handle, [wait_ready] and [wait_black] return True at
    once: the world, clock included, is as it was at the call. *)
Theorem C1_stream_end_sets_both_latches env w p te k :
  _reader_thread (animation w) = Some (Reading p (Some (te, k))) ->
  Forall (fun x => Qle_bool (fst x) te = true) p ->
  (forall timeout,
     Qle_bool 0 timeout = true ->
     Qle_bool te (now w + timeout) = true ->
     result (wait_ready timeout env w) = Ret true
     /\ result (wait_black timeout env w) = Ret true
     /\ (now (final (wait_ready timeout env w)) <= now w + timeout)%Q
     /\ (now (final (wait_black timeout env w)) <= now w + timeout)%Q)
  /\ (Qle_bool te (now w) = true ->
      animation (run_reader w)
        = with_reader (Some Exited)
            (fst (_read_signals (map snd p) k (animation w)))
      /\ forall os timeout,
           let w' := run_ops env os (run_reader w) in
           flag Ready (animation w') = true
           /\ flag Black (animation w') = true
           /\ wait_ready timeout env w'
                = (Ret true, w',
                   [Debug [Lit "Waiting for READY signal (timeout=";
                           PSecs timeout; Lit "s)"];
                    Wait Ready timeout true])
           /\ wait_black timeout env w'
                = (Ret true, w',
                   [Debug [Lit "Waiting for BLACK signal (timeout=";
                           PSecs timeout; Lit "s)"];
                    Wait Black timeout true])).
Proof.
  intros R Hp. split.
  - intros timeout H0 He.
    destruct (Event_wait_released Ready timeout env w p te k R Hp H0 He)
      as (wr & Er & Br).
    destruct (Event_wait_released Black timeout env w p te k R Hp H0 He)
      as (wb & Eb & Bb).
    destruct (wait_ready_result _ _ _ _ _ Er) as [-> ->].
    destruct (wait_black_result _ _ _ _ _ Eb) as [-> ->].
    repeat split; assumption.
  - intros Ht.
    assert (Hp' : Forall (fun x => Qle_bool (fst x) (now w) = true) p).
    { eapply Forall_impl; [| exact Hp]. cbn. intros x Hx.
      apply Qle_bool_iff. apply Qle_bool_iff in Hx, Ht.
      eapply Qle_trans; eauto. }
    pose proof (drain_exits (now w) te k p (animation w) Hp' Ht) as X.
    destruct (drain_is_read_signals _ _ _ _ X) as (te' & k' & Hf & D).
    inversion Hf; subst te' k'.
    assert (A : animation (run_reader w)
                = with_reader (Some Exited)
                    (fst (_read_signals (map snd p) k (animation w)))).
    { unfold run_reader. rewrite R, D. reflexivity. }
    split; [exact A |].
    intros os timeout w'.
    assert (F : forall l, flag l (animation w') = true).
    { intros l. apply run_ops_keeps. rewrite A.
      pose proof (_read_signals_sets (map snd p) k (animation w) l) as S.
      destruct l; exact S. }
    repeat split; auto using wait_ready_set, wait_black_set.
Qed.

(** C2. A latch that is set stays set through every sequence of operations
    on the handle (start, the waits, is_running, terminate, the reader
    running as time passes); a further sentinel line for it, or the end of
    the output, leaves the object exactly as it is; and every wait on it
    returns True at once, with the world unchanged. *)
Theorem C2_latches_monotonic env w l :
  flag l (animation w) = true ->
  (forall os, flag l (animation (run_ops env os w)) = true)
  /\ (forall raw, PyStr.strip raw = sentinel_of l ->
        fst (read_line raw (animation w)) = animation w)
  /\ (forall raw k, fst (read_line raw (fst (read_finish k (animation w))))
                    = fst (read_finish k (animation w)))
  /\ (forall k k', fst (read_finish k' (fst (read_finish k (animation w))))
                   = fst (read_finish k (animation w)))
  /\ Event.set (Event.set (flag l (animation w))) = Event.set (flag l (animation w))
  /\ (forall os timeout,
        Event_wait l timeout env (run_ops env os w)
          = (Ret true, run_ops env os w, [Wait l timeout true])).
Proof.
  intros H. repeat split.
  - intros os. now apply run_ops_keeps.
  - intros raw S. unfold read_line. rewrite S. cbn [fst].
    destruct (animation w) as [sp pr re bl rd].
    destruct l; cbn in *; unfold flag, Event.is_set in H; cbn in H;
      subst; reflexivity.
  - intros raw k. unfold read_line, read_finish. cbn.
    destruct (PyStr.strip raw =? "READY")%string; [reflexivity |].
    destruct (PyStr.strip raw =? "BLACK")%string; reflexivity.
  - intros os timeout. apply Event_wait_set. now apply run_ops_keeps.
Qed.

(** C10. On a handle without subprocess (as [__init__] makes it, and as a
    [start] that did not succeed leaves it) [terminate] does nothing and
    returns, and [is_running] is False.  Whenever [terminate] kills, it has
    first asked for termination and waited the full 2 seconds in vain. *)
Theorem C10_terminate_safe_without_process env :
  (forall path, process (__init__ path) = None)
  /\ (forall w, process (animation w) = None ->
        terminate env w = (Ret tt, w, [])
        /\ is_running env w = (Ret false, w, [])
        /\ (result (start env w) <> Ret true -> final (start env w) = w))
  /\ (forall w, In ProcKill (events (terminate env w)) ->
        events (terminate env w) = [ProcTerminate; ProcWait 2 false; ProcKill]
        /\ now (final (terminate env w)) = (now w + 2)%Q).
Proof.
  split; [reflexivity |]. split.
  - intros w P. repeat split.
    + destruct (terminate_run env w) as (w' & t & E & _ & N & _).
      destruct (N P) as [-> ->]. exact E.
    + destruct (is_running_run env w) as (r & E & N). now rewrite E, (N P).
    + intros S. pose proof (start_run env w) as K.
      destruct (script_path (animation w)) as [path |].
      * destruct (path_exists env path).
        -- destruct K as (w' & E & _). rewrite E in S. now elim S.
        -- now rewrite K.
      * now rewrite K.
  - intros w. destruct (terminate_run env w) as (w' & t & E & _ & _ & _ & K & _).
    rewrite E. cbn. exact K.
Qed.

End Handle.

(** ** The IPC client *)

Section Ipc.

Arguments advance : simpl never.

Lemma send_ipc_run method env w :
  send_ipc method env w =
    match ipc_reply env (ipc_calls w) method with
    | None => (Ret true, count_ipc w, [Ipc method true])
    | Some e => (Ret false, count_ipc w, [Ipc method false; warn_ipc method e])
    end.
Proof.
  unfold send_ipc, bind, ask, get, modify, emit, debug_log, ret. cbn.
  destruct (ipc_reply env (ipc_calls w) method); reflexivity.
Qed.

(** One turn of the loop. *)
Lemma retry_from_S method max_attempts delay attempt todo env w :
  retry_from method max_attempts delay attempt (S todo) env w =
    match ipc_reply env (ipc_calls w) method with
    | None => (Ret true, count_ipc w, [Ipc method true])
    | Some e =>
        if attempt <? max_attempts - 1 then
          if Qle_bool 0 delay then
            match retry_from method max_attempts delay (attempt + 1) todo env
                    (advance (now w + delay) (count_ipc w)) with
            | (r, w', t) =>
                (r, w',
                 [Ipc method false; warn_ipc method e;
                  note_retry method max_attempts delay attempt; Sleep delay] ++ t)
            end
          else (Raise (ValueError "sleep length must be non-negative"),
                count_ipc w,
                [Ipc method false; warn_ipc method e;
                 note_retry method max_attempts delay attempt])
        else
          match retry_from method max_attempts delay (attempt + 1) todo env
                  (count_ipc w) with
          | (r, w', t) => (r, w', [Ipc method false; warn_ipc method e] ++ t)
          end
    end.
Proof.
  cbn [retry_from]. rewrite bind_eq, send_ipc_run.
  destruct (ipc_reply env (ipc_calls w) method) as [e |]; [| reflexivity].
  rewrite bind_eq. unfold when.
  destruct (attempt <? max_attempts - 1).
  - unfold time_sleep. destruct (Qle_bool 0 delay).
    + unfold bind, debug_log, emit, get, modify. cbn.
      destruct (retry_from method max_attempts delay (attempt + 1) todo env _)
        as [[r w'] t]. reflexivity.
    + reflexivity.
  - cbn [ret].
    destruct (retry_from method max_attempts delay (attempt + 1) todo env _)
      as [[r w'] t]. reflexivity.
Qed.

Ltac retry_turn :=
  rewrite retry_from_S; try rewrite advance_ipc; cbn [count_ipc ipc_calls];
  match goal with
  | |- context [ipc_reply ?env ?n ?m] => destruct (ipc_reply env n m)
  end; cbn -[advance retry_from].

Ltac retry_close j :=
  cbn -[advance];
  exists j; do 3 eexists; split; [reflexivity |];
  repeat split; cbn; try lia; try discriminate;
  repeat (rewrite advance_ipc; cbn [count_ipc ipc_calls]); auto;
  try (intros l H; repeat apply advance_keeps; exact H).

Lemma send_ipc_with_retry_run method env w :
  exists (j : nat) (r : bool) (w' : World) (t : list event),
    send_ipc_with_retry method 5 1 env w = (Ret r, w', t)
    /\ (j <= 4)%nat
    /\ actions t = retry_actions method j r
    /\ launched t = []
    /\ (r = false -> j = 4%nat)
    /\ ipc_calls w' = (S j + ipc_calls w)%nat
    /\ (forall l, flag l (animation w) = true -> flag l (animation w') = true).
Proof.
  unfold send_ipc_with_retry. change (Z.to_nat 5) with 5%nat.
  retry_turn; [| retry_close 0%nat].
  retry_turn; [| retry_close 1%nat].
  retry_turn; [| retry_close 2%nat].
  retry_turn; [| retry_close 3%nat].
  retry_turn; [| retry_close 4%nat].
  retry_close 4%nat.
Qed.

(** C4. For every method, [send_ipc_with_retry] with its defaults makes at
    most 5 requests; each failed request but the last is followed by a sleep
    of 1 second; a successful request ends the call at once with True; False
    is returned only after five failed requests (four sleeps). *)
Theorem C4_retry_bounded method env w :
  exists (j : nat) (r : bool) (w' : World) (t : list event),
    send_ipc_with_retry method 5 1 env w = (Ret r, w', t)
    /\ (j <= 4)%nat
    /\ actions t
       = List.concat (repeat [Ipc method false; Sleep 1] j) ++ [Ipc method r]
    /\ (r = false -> j = 4%nat)
    /\ ipc_calls w' = (S j + ipc_calls w)%nat.
Proof.
  destruct (send_ipc_with_retry_run method env w)
    as (j & r & w' & t & E & J & A & _ & F & I & _).
  exists j, r, w', t. repeat split; auto.
Qed.

End Ipc.

(** ** The driver *)

Section Driver.

Arguments advance : simpl never.
Arguments flag : simpl never.

Lemma time_sleep_run secs env w :
  Qle_bool 0 secs = true ->
  time_sleep secs env w = (Ret tt, advance (now w + secs) w, [Sleep secs]).
Proof. intros H. unfold time_sleep. rewrite H. reflexivity. Qed.

Lemma time_sleep_negative secs env w :
  Qle_bool 0 secs = false ->
  time_sleep secs env w
    = (Raise (ValueError "sleep length must be non-negative"), w, []).
Proof. intros H. unfold time_sleep. rewrite H. reflexivity. Qed.

Lemma hold_forever_run fuel : forall env w,
  exists w',
    hold_forever fuel env w = (Holding, w', repeat (Sleep 1) fuel).
Proof.
  induction fuel as [| n IH]; intros env w.
  - exists w. reflexivity.
  - cbn [hold_forever]. rewrite bind_eq, time_sleep_run by reflexivity.
    destruct (IH env (advance (now w + 1) w)) as (w' & E). rewrite E.
    exists w'. reflexivity.
Qed.

Lemma launched_app t1 t2 : launched (t1 ++ t2) = launched t1 ++ launched t2.
Proof.
  induction t1 as [| e t1 IH]; [reflexivity |].
  destruct e; cbn; rewrite IH; reflexivity.
Qed.

Lemma actions_app t1 t2 : actions (t1 ++ t2) = actions t1 ++ actions t2.
Proof.
  induction t1 as [| e t1 IH]; [reflexivity |].
  destruct e; cbn; rewrite IH; reflexivity.
Qed.

Lemma launched_sleeps n : launched (repeat (Sleep 1) n) = [].
Proof. induction n; auto. Qed.

Lemma terminate_trace_quiet t :
  terminate_trace t -> actions t = t /\ launched t = [].
Proof. intros []; auto. Qed.

Lemma cleanup_run (retry : bool) method note env w :
  exists (j : nat) (r : bool) (w' : World) (t : list event),
    (success <- (if retry then send_ipc_with_retry method 5 1
                 else send_ipc method) ;;
     when success (debug_log note)) env w = (Ret tt, w', t)
    /\ (j <= 4)%nat
    /\ actions t = ipc_actions retry method j r
    /\ launched t = []
    /\ (retry = true -> r = false -> j = 4%nat)
    /\ ipc_calls w' = (S j + ipc_calls w)%nat.
Proof.
  rewrite bind_eq. destruct retry.
  - destruct (send_ipc_with_retry_run method env w)
      as (j & r & w' & t & E & J & A & L & F & I & _).
    rewrite E. exists j, r, w'. destruct r; cbn; eexists;
      (split; [reflexivity |]); rewrite actions_app, launched_app, A, L;
      cbn; rewrite app_nil_r; auto.
  - rewrite send_ipc_run.
    destruct (ipc_reply env (ipc_calls w) method);
      cbn; exists 0%nat; do 3 eexists; (split; [reflexivity |]);
      cbn; repeat split; auto with arith; discriminate.
Qed.

Lemma unfreeze_compositor_run retry env w :
  exists (j : nat) (r : bool) (w' : World) (t : list event),
    unfreeze_compositor retry env w = (Ret tt, w', t)
    /\ (j <= 4)%nat
    /\ actions t = ipc_actions retry "screen-freeze/unfreeze" j r
    /\ launched t = []
    /\ (retry = true -> r = false -> j = 4%nat)
    /\ ipc_calls w' = (S j + ipc_calls w)%nat.
Proof. apply cleanup_run. Qed.

Lemma show_cursor_run retry env w :
  exists (j : nat) (r : bool) (w' : World) (t : list event),
    show_cursor retry env w = (Ret tt, w', t)
    /\ (j <= 4)%nat
    /\ actions t = ipc_actions retry "cursor-control/show" j r
    /\ launched t = []
    /\ (retry = true -> r = false -> j = 4%nat)
    /\ ipc_calls w' = (S j + ipc_calls w)%nat.
Proof. apply cleanup_run. Qed.

Lemma get_session_id_run env w :
  exists sid,
    get_session_id env w
      = (Ret sid, w, [Run ["loginctl"; "list-sessions"; "--no-legend"]]).
Proof.
  unfold get_session_id, bind, emit, ask. cbn.
  destruct (list_sessions env); cbn; eexists; reflexivity.
Qed.

(** The part of [execute_power_action] shared by test mode and by
    suspend/hibernate: stop the animation, then the IPC cleanup. *)
Lemma cleanup_tail retry (k : M unit) env w :
  exists w1 tterm j1 r1 j2 r2 w3 t,
    (forall tk r w4, k env w3 = (r, w4, tk) ->
       (terminate_if (Some TheAnimation) ;;
        unfreeze_compositor retry ;; show_cursor retry ;; k) env w
         = (r, w4, t ++ tk))
    /\ terminate env w = (Ret tt, w1, tterm)
    /\ terminate_trace tterm
    /\ (process (animation w) <> None -> tterm <> [])
    /\ (j1 <= 4)%nat /\ (j2 <= 4)%nat
    /\ actions t = tterm ++ ipc_actions retry "screen-freeze/unfreeze" j1 r1
                         ++ ipc_actions retry "cursor-control/show" j2 r2
    /\ launched t = []
    /\ (retry = true -> r1 = false -> j1 = 4%nat)
    /\ (retry = true -> r2 = false -> j2 = 4%nat)
    /\ ipc_calls w3 = (S j1 + S j2 + ipc_calls w)%nat.
Proof.
  destruct (terminate_run env w) as (w1 & tterm & E1 & T & _ & N & _ & _ & I1).
  destruct (unfreeze_compositor_run retry env w1)
    as (j1 & r1 & w2 & t2 & E2 & J1 & A2 & L2 & F2 & I2).
  destruct (show_cursor_run retry env w2)
    as (j2 & r2 & w3 & t3 & E3 & J2 & A3 & L3 & F3 & I3).
  exists w1, tterm, j1, r1, j2, r2, w3, (tterm ++ t2 ++ t3).
  destruct (terminate_trace_quiet _ T) as [AT LT].
  repeat split; auto.
  - intros tk r w4 K. cbn [terminate_if].
    rewrite bind_eq, E1, bind_eq, E2, bind_eq, E3, K.
    now rewrite <- !app_assoc.
  - now rewrite !actions_app, AT, A2, A3.
  - now rewrite !launched_app, LT, L2, L3.
  - rewrite I3, I2, I1. lia.
Qed.

Lemma advance_process t w :
  process (animation (advance t w)) = process (animation w).
Proof. unfold advance. now rewrite run_reader_process. Qed.

Ltac crunch :=
  cbn -[bind terminate terminate_if unfreeze_compositor show_cursor time_sleep
        time_sleep_int PYTIME_SECS_MAX hold_forever advance get_session_id
        start wait_ready wait_black
        execute_power_action run_without_animation get_animation_script].

Ltac step := rewrite bind_eq; crunch.

(** The hold loop of shutdown, reboot and windows: never left. *)
Lemma execute_holds fuel action hold_time animation env w :
  In action ["shutdown"; "reboot"; "windows"] ->
  exists w' t,
    execute_power_action fuel action animation hold_time env w = (Holding, w', t).
Proof.
  intros [<- | [<- | [<- | []]]]; unfold execute_power_action; crunch.
  - repeat step.
    destruct (hold_forever_run fuel env w) as (w' & E). rewrite E.
    eexists _, _; reflexivity.
  - repeat step.
    destruct (hold_forever_run fuel env w) as (w' & E). rewrite E.
    eexists _, _; reflexivity.
  - repeat step.
    destruct (fst (efibootmgr env) =? 0); crunch; repeat step;
    destruct (hold_forever_run fuel env w) as (w' & E); rewrite E;
    eexists _, _; reflexivity.
Qed.

(** C5. For suspend and hibernate, [execute_power_action] launches the
    command detached, sleeps 3 seconds, terminates the animation, sends the
    unfreeze and show-cursor requests with retry (each is repeated after a
    sleep of 1 second until it succeeds, and given up only after five
    failures), and returns, whatever the fuel: the hold loop, in which
    shutdown, reboot and windows stay, is not entered. *)
Theorem C5_suspend_returns fuel action hold_time env w :
  action = "suspend" \/ action = "hibernate" ->
  (exists w' t tterm j1 r1 j2 r2,
     execute_power_action fuel action (Some TheAnimation) hold_time env w
       = (Ret tt, w', t)
     /\ terminate_trace tterm
     /\ (process (animation w) <> None -> tterm <> [])
     /\ (j1 <= 4)%nat /\ (j2 <= 4)%nat
     /\ (r1 = false -> j1 = 4%nat) /\ (r2 = false -> j2 = 4%nat)
     /\ actions t
        = [Popen ["systemctl"; action]; Sleep 3] ++ tterm
          ++ retry_actions "screen-freeze/unfreeze" j1 r1
          ++ retry_actions "cursor-control/show" j2 r2
     /\ launched t = [["systemctl"; action]]
     /\ ipc_calls w' = (S j1 + S j2 + ipc_calls w)%nat)
  /\ (forall other, In other ["shutdown"; "reboot"; "windows"] ->
        result (execute_power_action fuel other (Some TheAnimation) hold_time env w)
          = Holding).
Proof.
  intros H. split.
  2:{ intros other Ho.
      destruct (execute_holds fuel other hold_time (Some TheAnimation) env w Ho)
        as (w' & t & E). now rewrite E. }
  destruct (cleanup_tail true
              (debug_log [Lit "Resumed from suspend/hibernate, compositor unfrozen"])
              env (advance (now w + 3) w))
    as (w1 & tterm & j1 & r1 & j2 & r2 & w3 & t & K & _ & T & N & J1 & J2 & A & L
        & F1 & F2 & I).
  specialize (K _ _ _ eq_refl).
  specialize (F1 eq_refl). specialize (F2 eq_refl).
  exists w3. eexists. exists tterm, j1, r1, j2, r2.
  rewrite advance_process in N. rewrite advance_ipc in I.
  destruct H as [-> | ->]; unfold execute_power_action; crunch; repeat step;
    rewrite time_sleep_run by reflexivity; cbn -[advance bind terminate_if
      unfreeze_compositor show_cursor]; rewrite K;
    (split; [reflexivity |]); repeat split; auto;
    cbn; rewrite ?actions_app, ?launched_app, ?A, ?L; cbn;
    rewrite ?app_nil_r; reflexivity.
Qed.

(** C6. When the session lookup of a logout gives the empty string, the
    animated path logs and prints the error, terminates the animation and
    returns; the path without animation prints the error and returns (exit
    code 0); in both, the only program run is the session listing: no
    [loginctl terminate-session]. *)
Theorem C6_logout_without_session fuel hold_time env w :
  result (get_session_id env w) = Ret "" ->
  (exists w' tterm,
     terminate env w = (Ret tt, w', tterm)
     /\ terminate_trace tterm
     /\ (process (animation w) <> None -> tterm <> [])
     /\ execute_power_action fuel "logout" (Some TheAnimation) hold_time env w
        = (Ret tt, w', [Run LIST_SESSIONS; Debug NO_SESSION; PrintErr NO_SESSION] ++ tterm)
     /\ launched ([Run LIST_SESSIONS; Debug NO_SESSION; PrintErr NO_SESSION] ++ tterm)
        = [LIST_SESSIONS])
  /\ main fuel "logout" "none" hold_time env w
     = (Ret 0, w,
        preamble "logout" "none"
        ++ [Debug [Lit "Running without animation: "; PStr "logout"];
            Print [Lit "Executing "; PStr "logout"; Lit " (no animation)..."];
            Run LIST_SESSIONS; PrintErr NO_SESSION]).
Proof.
  intros H. destruct (get_session_id_run env w) as (sid & E).
  rewrite E in H. cbn in H. injection H as ->.
  split.
  - destruct (terminate_run env w) as (w' & tterm & T & TT & _ & N & _).
    exists w', tterm. repeat split; auto.
    + unfold execute_power_action. crunch. do 2 step. rewrite E. crunch.
      repeat step. cbn [terminate_if]. rewrite T. crunch.
      rewrite !app_nil_r. reflexivity.
    + rewrite launched_app. destruct (terminate_trace_quiet _ TT) as [_ ->].
      reflexivity.
  - unfold main. crunch. repeat step. unfold run_without_animation. crunch.
    repeat step. rewrite E. crunch. reflexivity.
Qed.

(** C7. The path without animation runs the boot-entry helper and discards
    its result: whatever the helper's exit status, the trace is the same,
    without any warning, and ends with the reboot command.  The animated
    path, on a non-zero status, logs and prints the warning before it
    launches the reboot. *)
Theorem C7_boot_entry_failure_not_reported_without_animation fuel hold_time env w :
  fst (efibootmgr env) <> 0 ->
  run_without_animation "windows" hold_time env w
    = (Ret tt, w,
       [Debug [Lit "Running without animation: "; PStr "windows"];
        Print [Lit "Executing "; PStr "windows"; Lit " (no animation)..."];
        Run EFIBOOTMGR;
        Debug [Lit "Executing: "; PArgv ["sudo"; "-A"; "reboot"]];
        Run ["sudo"; "-A"; "reboot"]])
  /\ exists w' t,
       execute_power_action fuel "windows" (Some TheAnimation) hold_time env w
         = (Holding, w',
            [Debug [Lit "Setting Windows boot entry..."];
             Run EFIBOOTMGR;
             Debug [Lit "WARNING: efibootmgr failed: "; PStr (snd (efibootmgr env))];
             PrintErr [Lit "WARNING: Could not set Windows boot entry"];
             Debug [Lit "Executing power action: "; PArgv ["sudo"; "-A"; "reboot"]];
             Print [Lit "Executing: "; PArgv ["sudo"; "-A"; "reboot"]];
             Popen ["sudo"; "-A"; "reboot"]] ++ t).
Proof.
  intros H. split; [reflexivity |].
  apply Z.eqb_neq in H.
  unfold execute_power_action. crunch. repeat step. rewrite H. crunch.
  repeat step.
  destruct (hold_forever_run fuel env w) as (w' & E). rewrite E.
  eexists _, _. reflexivity.
Qed.

Lemma main_no_script fuel action name hold_time env w :
  (name =? "none")%string = false ->
  get_animation_script env name = None ->
  main fuel action name hold_time env w
    = (Raise (TypeError
         "stat: path should be string, bytes, os.PathLike or integer, not NoneType"),
       set_animation (__init__ None) w,
       preamble action name
       ++ [Print [Lit "[1/3] Starting "; PStr name; Lit " animation..."]]).
Proof.
  intros Hn G. unfold main. crunch. repeat step. rewrite Hn. repeat step.
  rewrite G. reflexivity.
Qed.

Lemma main_script_missing fuel action name hold_time env w path :
  (name =? "none")%string = false ->
  get_animation_script env name = Some path ->
  path_exists env path = false ->
  start env (set_animation (__init__ (Some path)) w)
    = (Ret false, set_animation (__init__ (Some path)) w,
       [Debug [Lit "ERROR: Animation script not found: "; PStr path];
        PrintErr [Lit "ERROR: Animation script not found: "; PStr path]])
  /\ main fuel action name hold_time env w
     = (Ret 1, set_animation (__init__ (Some path)) w,
        preamble action name
        ++ [Print [Lit "[1/3] Starting "; PStr name; Lit " animation..."];
            Debug [Lit "ERROR: Animation script not found: "; PStr path];
            PrintErr [Lit "ERROR: Animation script not found: "; PStr path];
            PrintErr [Lit "ERROR: Failed to start animation"]]).
Proof.
  intros Hn G X.
  pose proof (start_run env (set_animation (__init__ (Some path)) w)) as S.
  cbn [animation set_animation script_path __init__] in S. rewrite X in S.
  split; [exact S |].
  unfold main. crunch. repeat step. rewrite Hn. repeat step. rewrite G, S.
  reflexivity.
Qed.

(** C8. With an animation requested: when the discovery gives no path,
    [start] raises the [TypeError] of [os.path.exists(None)] and [main]
    ends by that exception; when it gives a path that does not exist,
    [start] returns False and [main] returns 1.  In both cases nothing is
    spawned and no power command is issued. *)
Theorem C8_animation_script_missing fuel action name hold_time env w :
  name <> "none" ->
  (get_animation_script env name = None ->
     start env (set_animation (__init__ None) w)
       = (Raise (TypeError
            "stat: path should be string, bytes, os.PathLike or integer, not NoneType"),
          set_animation (__init__ None) w, [])
     /\ main fuel action name hold_time env w
        = (Raise (TypeError
             "stat: path should be string, bytes, os.PathLike or integer, not NoneType"),
           set_animation (__init__ None) w,
           preamble action name
           ++ [Print [Lit "[1/3] Starting "; PStr name; Lit " animation..."]]))
  /\ (forall path,
        get_animation_script env name = Some path ->
        path_exists env path = false ->
        start env (set_animation (__init__ (Some path)) w)
          = (Ret false, set_animation (__init__ (Some path)) w,
             [Debug [Lit "ERROR: Animation script not found: "; PStr path];
              PrintErr [Lit "ERROR: Animation script not found: "; PStr path]])
        /\ main fuel action name hold_time env w
           = (Ret 1, set_animation (__init__ (Some path)) w,
              preamble action name
              ++ [Print [Lit "[1/3] Starting "; PStr name; Lit " animation..."];
                  Debug [Lit "ERROR: Animation script not found: "; PStr path];
                  PrintErr [Lit "ERROR: Animation script not found: "; PStr path];
                  PrintErr [Lit "ERROR: Failed to start animation"]])).
Proof.
  intros Hn. apply String.eqb_neq in Hn. split.
  - intros G. split; [reflexivity |]. now apply main_no_script.
  - intros path G X. now apply main_script_missing.
Qed.

Lemma handshake_run fuel action name hold_time env w path :
  (name =? "none")%string = false ->
  get_animation_script env name = Some path ->
  path_exists env path = true ->
  exists ready black w1,
    forall r w2 t,
      execute_power_action fuel action (Some TheAnimation) hold_time env w1
        = (r, w2, t) ->
      main fuel action name hold_time env w
        = (exit_of r, w2,
           preamble action name ++ handshake_trace name path ready black ++ t).
Proof.
  intros Hn G X.
  pose proof (start_run env (set_animation (__init__ (Some path)) w)) as S.
  cbn [animation set_animation script_path __init__] in S. rewrite X in S.
  destruct S as (w0 & S & _).
  destruct (wait_ready_run 5 env w0) as (wr & R & _).
  destruct (wait_black_run 30 env wr) as (wb & B & _).
  exists (flag Ready (animation wr)), (flag Black (animation wb)), wb.
  intros r w2 t K.
  unfold main. crunch. repeat step. rewrite Hn. repeat step. rewrite G, S.
  crunch. repeat step. rewrite R.
  destruct (flag Ready (animation wr)); crunch; repeat step; rewrite B;
    destruct (flag Black (animation wb)); crunch; repeat step; rewrite K;
    destruct r; crunch; rewrite ?app_nil_r; reflexivity.
Qed.

(** C3. On the animation path the run either ends before any wait and
    before any power action (the animation did not start), or goes: wait
    for READY with timeout 5, then wait for BLACK with timeout 30, then
    [execute_power_action], whatever the two waits returned; a wait that
    timed out leaves a warning in the log and on the error stream and
    nothing else. *)
Theorem C3_waits_then_power_action fuel action name hold_time env w :
  name <> "none" ->
  (actions (events (main fuel action name hold_time env w))
     = [InstallHandlers; InitLog]
   /\ result (main fuel action name hold_time env w) <> Ret 0)
  \/ exists path ready black w1 r w2 t,
       execute_power_action fuel action (Some TheAnimation) hold_time env w1
         = (r, w2, t)
       /\ main fuel action name hold_time env w
          = (exit_of r, w2,
             preamble action name
             ++ [Print [Lit "[1/3] Starting "; PStr name; Lit " animation..."];
                 Debug [Lit "Starting animation: "; PStr path];
                 SpawnAnimation ["python3"; path];
                 Print [Lit "[2/3] Waiting for overlay..."];
                 Debug [Lit "Waiting for READY signal (timeout="; PSecs 5; Lit "s)"];
                 Wait Ready 5 ready]
             ++ (if ready then []
                 else [Debug [Lit "WARNING: Timeout waiting for READY signal"];
                       PrintErr [Lit "WARNING: Animation did not signal READY, proceeding anyway"]])
             ++ [Print [Lit "[3/3] Animation playing..."];
                 Debug [Lit "Waiting for BLACK signal (timeout="; PSecs 30; Lit "s)"];
                 Wait Black 30 black]
             ++ (if black then []
                 else [Debug [Lit "WARNING: Timeout waiting for BLACK signal"];
                       PrintErr [Lit "WARNING: Animation did not signal BLACK, proceeding anyway"]])
             ++ [Print [Lit "Animation complete."];
                 Debug [Lit "Executing power action..."]]
             ++ t).
Proof.
  intros Hn. apply String.eqb_neq in Hn.
  destruct (get_animation_script env name) as [path |] eqn:G.
  2:{ left. rewrite main_no_script by assumption. split; [reflexivity |].
      discriminate. }
  destruct (path_exists env path) eqn:X.
  2:{ left.
      destruct (main_script_missing fuel action name hold_time env w path Hn G X)
        as [_ E].
      rewrite E. split; [reflexivity |]. discriminate. }
  right.
  destruct (handshake_run fuel action name hold_time env w path Hn G X)
    as (ready & black & w1 & K).
  destruct (execute_power_action fuel action (Some TheAnimation) hold_time env w1)
    as [[r w2] t] eqn:E.
  exists path, ready, black, w1, r, w2, t. split; [exact E |].
  rewrite (K _ _ _ eq_refl). destruct ready, black; reflexivity.
Qed.

Lemma sleep_accepts hold_time :
  0 <= hold_time -> Qle_bool 0 (inject_Z hold_time) = true.
Proof.
  intros H. apply Qle_bool_iff. unfold Qle, inject_Z. cbn. lia.
Qed.

(** The sleep of an integer length: it sleeps, or raises what
    [sleep_refusal] tells and leaves everything as it was. *)
Lemma time_sleep_int_run secs env w :
  (0 <= secs <= PYTIME_SECS_MAX
   /\ sleep_error env (now w) secs = None
   /\ time_sleep_int secs env w
      = (Ret tt, advance (now w + inject_Z secs) w, [Sleep (inject_Z secs)]))
  \/ (exists e, sleep_refusal env (now w) secs e
                /\ time_sleep_int secs env w = (Raise e, w, [])).
Proof.
  unfold time_sleep_int, sleep_refusal.
  destruct (Z.ltb_spec secs (- PYTIME_SECS_MAX)) as [A | A]; cbn [orb].
  { right. eexists. split; [| reflexivity]. left. split; [reflexivity | lia]. }
  destruct (Z.ltb_spec PYTIME_SECS_MAX secs) as [B | B].
  { right. eexists. split; [| reflexivity]. left. split; [reflexivity | lia]. }
  destruct (Z.ltb_spec secs 0) as [C | C].
  { right. eexists. split; [| reflexivity].
    right. left. split; [reflexivity | lia]. }
  rewrite bind_eq. cbn [ask]. rewrite bind_eq. cbn [get].
  destruct (sleep_error env (now w) secs) as [m |] eqn:S.
  - right. eexists. split; [| reflexivity].
    right. right. exists m. repeat split; auto.
  - left. repeat split; auto.
    rewrite time_sleep_run by now apply sleep_accepts. reflexivity.
Qed.

(** Test mode without animation. *)
Lemma run_without_animation_test hold_time env w :
  let t0 := [Debug [Lit "Running without animation: "; PStr "test"];
             Print [Lit "Executing "; PStr "test"; Lit " (no animation)..."];
             Debug [Lit "[TEST] No animation, waiting "; PInt hold_time;
                    Lit " seconds..."];
             Print [Lit "[TEST] No animation. Waiting "; PInt hold_time;
                    Lit " seconds..."]] in
  (0 <= hold_time <= PYTIME_SECS_MAX
   /\ sleep_error env (now w) hold_time = None
   /\ run_without_animation "test" hold_time env w
      = (Ret tt, advance (now w + inject_Z hold_time) w,
         t0 ++ [Sleep (inject_Z hold_time)] ++ TEST_DONE))
  \/ (exists e, sleep_refusal env (now w) hold_time e
                /\ run_without_animation "test" hold_time env w
                   = (Raise e, w, t0)).
Proof.
  unfold run_without_animation. crunch. repeat step.
  destruct (time_sleep_int_run hold_time env w) as [(R & S & E) | (e & R & E)];
    rewrite E; [left | right; exists e]; repeat split; auto; lia.
Qed.

Lemma main_none fuel action hold_time env w :
  main fuel action "none" hold_time env w =
    match run_without_animation action hold_time env w with
    | (r, w', t) => (exit_of r, w', preamble action "none" ++ t)
    end.
Proof.
  unfold main. crunch. repeat step.
  destruct (run_without_animation action hold_time env w) as [[r w'] t].
  destruct r; crunch; rewrite ?app_nil_r; reflexivity.
Qed.

(** Test mode with the animation. *)
Lemma execute_test_run fuel hold_time env w :
  exists r w' t,
    execute_power_action fuel "test" (Some TheAnimation) hold_time env w
      = (r, w', t)
    /\ launched t = []
    /\ (0 <= hold_time <= PYTIME_SECS_MAX ->
        sleep_error env (now w) hold_time = None ->
        r = Ret tt
        /\ exists tterm r1 r2 tc,
             terminate_trace tterm
             /\ actions t = Sleep (inject_Z hold_time) :: tterm
                            ++ [Ipc "screen-freeze/unfreeze" r1;
                                Ipc "cursor-control/show" r2]
             /\ t = tc ++ TEST_DONE).
Proof.
  unfold execute_power_action. crunch. repeat step.
  destruct (time_sleep_int_run hold_time env w) as [(R & S & E) | (e & R & E)];
    rewrite E.
  - destruct (cleanup_tail false
                (debug_log [Lit "[TEST] Done"] ;; print [Lit "[TEST] Done."])
                env (advance (now w + inject_Z hold_time) w))
      as (w1 & tterm & j1 & r1 & j2 & r2 & w3 & t & K & _ & T & _ & _ & _ & A & L
          & _).
    specialize (K _ _ _ eq_refl).
    cbn -[advance bind terminate_if unfreeze_compositor show_cursor].
    rewrite K. eexists _, _, _. split; [reflexivity |]. split.
    + cbn. rewrite launched_app, L. reflexivity.
    + intros _ _. split; [reflexivity |].
      exists tterm, r1, r2.
      exists ([Debug [Lit "[TEST] Animation complete, waiting "; PInt hold_time;
                      Lit " seconds..."];
               Print [Lit "[TEST] Animation complete. Waiting "; PInt hold_time;
                      Lit " seconds..."];
               Sleep (inject_Z hold_time)] ++ t).
      repeat split; auto.
      cbn. rewrite actions_app, A. cbn. now rewrite app_nil_r.
  - crunch. eexists _, _, _. split; [reflexivity |]. split; [reflexivity |].
    intros H S. exfalso.
    destruct R as [[_ R] | [[_ R] | (m & _ & _ & R)]]; [lia | lia | congruence].
Qed.

Lemma launched_handshake name path ready black :
  launched (handshake_trace name path ready black) = [].
Proof. destruct ready, black; reflexivity. Qed.

(** C9. The command of "test" is None, and a test run launches no
    program on behalf of a power action, whatever the animation and the
    hold.  With a hold that [time.sleep] accepts (not negative, within the
    9223372036 seconds that fit its count of nanoseconds, and not refused by
    the clock of the platform): without animation the run sleeps for the
    hold, prints the completion message and exits with 0; with an animation
    that started it does the same, terminating the animation and sending the
    two cleanup requests after the sleep. *)
Theorem C9_test_mode fuel name env w :
  dict_get POWER_COMMANDS "test" = None
  /\ (forall hold_time,
        launched (events (main fuel "test" name hold_time env w)) = [])
  /\ (forall hold_time,
        0 <= hold_time <= PYTIME_SECS_MAX ->
        (forall t, sleep_error env t hold_time = None) ->
        main fuel "test" "none" hold_time env w
          = (Ret 0, advance (now w + inject_Z hold_time) w,
             preamble "test" "none"
             ++ [Debug [Lit "Running without animation: "; PStr "test"];
                 Print [Lit "Executing "; PStr "test"; Lit " (no animation)..."];
                 Debug [Lit "[TEST] No animation, waiting "; PInt hold_time;
                        Lit " seconds..."];
                 Print [Lit "[TEST] No animation. Waiting "; PInt hold_time;
                        Lit " seconds..."];
                 Sleep (inject_Z hold_time);
                 Debug [Lit "[TEST] Done"]; Print [Lit "[TEST] Done."]])
        /\ (forall path,
              name <> "none" ->
              get_animation_script env name = Some path ->
              path_exists env path = true ->
              exists ready black w' tterm r1 r2 t tc,
                main fuel "test" name hold_time env w
                  = (Ret 0, w',
                     preamble "test" name
                     ++ handshake_trace name path ready black ++ t)
                /\ terminate_trace tterm
                /\ actions t = Sleep (inject_Z hold_time) :: tterm
                               ++ [Ipc "screen-freeze/unfreeze" r1;
                                   Ipc "cursor-control/show" r2]
                /\ t = tc ++ [Debug [Lit "[TEST] Done"];
                              Print [Lit "[TEST] Done."]])).
Proof.
  split; [reflexivity |]. split.
  - intros hold_time.
    destruct (name =? "none")%string eqn:Hn.
    + apply String.eqb_eq in Hn. subst name. rewrite main_none.
      destruct (run_without_animation_test hold_time env w)
        as [(_ & _ & E) | (e & _ & E)]; rewrite E; reflexivity.
    + destruct (get_animation_script env name) as [path |] eqn:G.
      * destruct (path_exists env path) eqn:X.
        -- destruct (handshake_run fuel "test" name hold_time env w path Hn G X)
             as (ready & black & w1 & K).
           destruct (execute_test_run fuel hold_time env w1)
             as (r & w' & t & E & L & _).
           rewrite (K _ _ _ E). unfold events. cbn [snd].
           now rewrite !launched_app, launched_handshake, L.
        -- destruct (main_script_missing fuel "test" name hold_time env w path
                       Hn G X) as [_ E].
           rewrite E. reflexivity.
      * rewrite main_no_script by assumption. reflexivity.
  - intros hold_time H S. split.
    + rewrite main_none.
      destruct (run_without_animation_test hold_time env w)
        as [(_ & _ & E) | (e & R & E)]; rewrite E; [reflexivity |].
      exfalso. specialize (S (now w)).
      destruct R as [[_ R] | [[_ R] | (m & _ & _ & R)]];
        [lia | lia | congruence].
    + intros path Hn G X. apply String.eqb_neq in Hn.
      destruct (handshake_run fuel "test" name hold_time env w path Hn G X)
        as (ready & black & w1 & K).
      destruct (execute_test_run fuel hold_time env w1)
        as (r & w' & t & E & _ & R).
      destruct (R H (S (now w1))) as (-> & tterm & r1 & r2 & tc & T & A & D).
      exists ready, black, w', tterm, r1, r2, t, tc.
      rewrite (K _ _ _ E). repeat split; auto.
Qed.

End Driver.

(** ** The statements at work *)

Section Instances.

(** With a silent animation both waits time out, and the suspend goes
    ahead all the same; the animation, deaf to SIGTERM, is killed after the
    2 seconds of grace; the compositor answers the third request. *)
Example silent_animation_suspend :
  actions (events (main 0 "suspend" "fire" 3 env_silent world0))
  = [InstallHandlers; InitLog; SpawnAnimation ["python3"; FIRE];
     Wait Ready 5 false; Wait Black 30 false;
     Popen ["systemctl"; "suspend"]; Sleep 3;
     ProcTerminate; ProcWait 2 false; ProcKill;
     Ipc "screen-freeze/unfreeze" false; Sleep 1;
     Ipc "screen-freeze/unfreeze" false; Sleep 1;
     Ipc "screen-freeze/unfreeze" true;
     Ipc "cursor-control/show" true]
  /\ result (main 0 "suspend" "fire" 3 env_silent world0) = Ret 0
  /\ now (final (main 0 "suspend" "fire" 3 env_silent world0)) == 42.
Proof. vm_compute. repeat split; discriminate. Qed.

(** A crashed animation releases both waits after one second. *)
Example crashed_animation_shutdown :
  actions (events (main 2 "shutdown" "fire" 3 env_crash world0))
  = [InstallHandlers; InitLog; SpawnAnimation ["python3"; FIRE];
     Wait Ready 5 true; Wait Black 30 true;
     Popen ["sudo"; "-A"; "shutdown"; "-h"; "now"]; Sleep 1; Sleep 1]
  /\ result (main 2 "shutdown" "fire" 3 env_crash world0) = Holding
  /\ now (final (main 2 "shutdown" "fire" 3 env_crash world0)) == 3.
Proof. vm_compute. repeat split; discriminate. Qed.

Example get_session_id_first_token :
  result (get_session_id env_crash world0) = Ret "c2"
  /\ result (get_session_id env_silent world0) = Ret "".
Proof. split; reflexivity. Qed.

Lemma C1_witness :
  _reader_thread (animation world_crashed)
    = Some (Reading [((1#2)%Q, "Traceback (most recent call last):")]
                    (Some (1%Q, Eof)))
  /\ Forall (fun x => Qle_bool (fst x) 1 = true)
            [((1#2)%Q, "Traceback (most recent call last):")]
  /\ Qle_bool 0 5 = true
  /\ Qle_bool 1 (now world_crashed + 5) = true
  /\ result (wait_ready 5 env_crash world_crashed) = Ret true
  /\ Qle_bool 1 (now world_crashed) = true
  /\ (let w' := run_ops env_crash [OpTerminate; OpElapse 9]
                  (run_reader world_crashed) in
      result (wait_ready 5 env_crash w') = Ret true
      /\ final (wait_ready 5 env_crash w') = w'
      /\ result (wait_black 30 env_crash w') = Ret true
      /\ final (wait_black 30 env_crash w') = w').
Proof.
  assert (F : Forall (fun x => Qle_bool (fst x) 1 = true)
                     [((1#2)%Q, "Traceback (most recent call last):")])
    by (repeat constructor).
  split; [reflexivity |]. split; [exact F |].
  split; [reflexivity |]. split; [reflexivity |].
  destruct (C1_stream_end_sets_both_latches env_crash world_crashed
              [((1#2)%Q, "Traceback (most recent call last):")] 1%Q Eof
              eq_refl F)
    as [I K].
  split; [exact (proj1 (I 5%Q eq_refl eq_refl)) |].
  split; [reflexivity |].
  destruct (K eq_refl) as [_ K'].
  intros w'.
  destruct (K' [OpTerminate; OpElapse 9] 5%Q) as (_ & _ & R & _).
  destruct (K' [OpTerminate; OpElapse 9] 30%Q) as (_ & _ & _ & B).
  fold w' in R, B. rewrite R, B. repeat split.
Defined.

Lemma C2_witness :
  flag Ready (animation world_ready) = true
  /\ flag Ready (animation (run_ops env_silent
                              [OpStart; OpWaitBlack 30; OpTerminate; OpElapse 60]
                              world_ready)) = true
  /\ fst (read_line "READY" (animation world_ready)) = animation world_ready
  /\ Event_wait Ready 5 env_silent world_ready
     = (Ret true, world_ready, [Wait Ready 5 true]).
Proof.
  split; [reflexivity |].
  destruct (C2_latches_monotonic env_silent world_ready Ready eq_refl)
    as (K & L & _ & _ & _ & W).
  split; [apply K |]. split; [apply L; reflexivity |].
  exact (W [] 5%Q).
Defined.

Lemma C3_witness :
  "fire" <> "none"
  /\ exists path ready black t,
       events (main 0 "shutdown" "fire" 3 env_silent world0)
       = preamble "shutdown" "fire" ++ handshake_trace "fire" path ready black ++ t.
Proof.
  assert (N : "fire" <> "none") by discriminate.
  split; [exact N |].
  destruct (C3_waits_then_power_action 0 "shutdown" "fire" 3 env_silent world0 N)
    as [[A _] | (path & ready & black & w1 & r & w2 & t & _ & E)].
  - discriminate A.
  - exists path, ready, black, t. rewrite E.
    destruct ready, black; reflexivity.
Defined.

Lemma C5_witness :
  ("suspend" = "suspend" \/ "suspend" = "hibernate")
  /\ result (execute_power_action 7 "suspend" (Some TheAnimation) 3
               env_silent world_started) = Ret tt
  /\ actions (events (execute_power_action 7 "suspend" (Some TheAnimation) 3
                        env_silent world_started))
     = [Popen ["systemctl"; "suspend"]; Sleep 3]
       ++ [ProcTerminate; ProcWait 2 false; ProcKill]
       ++ retry_actions "screen-freeze/unfreeze" 2 true
       ++ retry_actions "cursor-control/show" 0 true
  /\ result (execute_power_action 7 "reboot" (Some TheAnimation) 3
               env_silent world_started) = Holding.
Proof.
  split; [left; reflexivity |].
  destruct (C5_suspend_returns 7 "suspend" 3 env_silent world_started
              (or_introl eq_refl))
    as ((w' & t & tterm & j1 & r1 & j2 & r2 & E & _) & H).
  split; [rewrite E; reflexivity |].
  split; [reflexivity |].
  apply H. right. left. reflexivity.
Defined.

Lemma C6_witness :
  result (get_session_id env_silent world_started) = Ret ""
  /\ main 0 "logout" "none" 3 env_silent world_started
     = (Ret 0, world_started,
        preamble "logout" "none"
        ++ [Debug [Lit "Running without animation: "; PStr "logout"];
            Print [Lit "Executing "; PStr "logout"; Lit " (no animation)..."];
            Run LIST_SESSIONS; PrintErr NO_SESSION]).
Proof.
  split; [reflexivity |].
  exact (proj2 (C6_logout_without_session 0 3 env_silent world_started eq_refl)).
Defined.

Lemma C7_witness :
  fst (efibootmgr env_silent) <> 0
  /\ run_without_animation "windows" 3 env_silent world0
     = (Ret tt, world0,
        [Debug [Lit "Running without animation: "; PStr "windows"];
         Print [Lit "Executing "; PStr "windows"; Lit " (no animation)..."];
         Run EFIBOOTMGR;
         Debug [Lit "Executing: "; PArgv ["sudo"; "-A"; "reboot"]];
         Run ["sudo"; "-A"; "reboot"]]).
Proof.
  assert (N : fst (efibootmgr env_silent) <> 0) by discriminate.
  split; [exact N |].
  exact (proj1 (C7_boot_entry_failure_not_reported_without_animation
                  0 3 env_silent world0 N)).
Defined.

Lemma C8_witness :
  "fire" <> "none"
  /\ get_animation_script env_bare "fire" = None
  /\ result (main 0 "shutdown" "fire" 3 env_bare world0)
     = Raise (TypeError
         "stat: path should be string, bytes, os.PathLike or integer, not NoneType")
  /\ get_animation_script env_missing "fire" = Some FIRE
  /\ path_exists env_missing FIRE = false
  /\ result (main 0 "shutdown" "fire" 3 env_missing world0) = Ret 1.
Proof.
  assert (N : "fire" <> "none") by discriminate.
  split; [exact N |]. split; [reflexivity |].
  destruct (C8_animation_script_missing 0 "shutdown" "fire" 3 env_bare world0 N)
    as [A _].
  destruct (A eq_refl) as [_ E].
  split; [rewrite E; reflexivity |].
  split; [reflexivity |]. split; [reflexivity |].
  destruct (C8_animation_script_missing 0 "shutdown" "fire" 3 env_missing world0 N)
    as [_ B].
  destruct (B FIRE eq_refl eq_refl) as [_ E'].
  rewrite E'. reflexivity.
Defined.

(** Scenario A of the specification, and a test run with the animation. *)
Lemma C9_witness :
  0 <= 2 <= PYTIME_SECS_MAX
  /\ (forall t, sleep_error env_silent t 2 = None)
  /\ result (main 0 "test" "none" 2 env_silent world0) = Ret 0
  /\ In (Sleep 2) (events (main 0 "test" "none" 2 env_silent world0))
  /\ "fire" <> "none"
  /\ get_animation_script env_silent "fire" = Some FIRE
  /\ path_exists env_silent FIRE = true
  /\ result (main 0 "test" "fire" 2 env_silent world0) = Ret 0.
Proof.
  assert (P : 0 <= 2 <= PYTIME_SECS_MAX) by (split; discriminate).
  assert (S : forall t, sleep_error env_silent t 2 = None) by reflexivity.
  assert (N : "fire" <> "none") by discriminate.
  split; [exact P |]. split; [exact S |].
  destruct (C9_test_mode 0 "fire" env_silent world0) as (_ & _ & K).
  destruct (K 2 P S) as [E A].
  split; [rewrite E; reflexivity |].
  split; [rewrite E; cbn; auto 12 |].
  split; [exact N |]. split; [reflexivity |]. split; [reflexivity |].
  destruct (A FIRE N eq_refl eq_refl)
    as (ready & black & w' & tterm & r1 & r2 & t & tc & E' & _).
  rewrite E'. reflexivity.
Defined.

(** C9 as stated fails in three ways.  With a negative hold [time.sleep]
    raises: nothing is slept, no completion message is printed, and the run
    does not end with exit code 0.  With a hold beyond the range of
    [time.sleep] the run ends likewise, by [OverflowError].  With an
    animation whose script is missing the run ends with exit code 1 before
    any sleep. *)
Lemma C9_counterexample_negative_hold :
  main 0 "test" "none" (-1) env_silent world0
  = (Raise (ValueError "sleep length must be non-negative"), world0,
     preamble "test" "none"
     ++ [Debug [Lit "Running without animation: "; PStr "test"];
         Print [Lit "Executing "; PStr "test"; Lit " (no animation)..."];
         Debug [Lit "[TEST] No animation, waiting "; PInt (-1); Lit " seconds..."];
         Print [Lit "[TEST] No animation. Waiting "; PInt (-1); Lit " seconds..."]])
  /\ result (main 0 "test" "none" (-1) env_silent world0) <> Ret 0
  /\ ~ In (Print [Lit "[TEST] Done."])
          (events (main 0 "test" "none" (-1) env_silent world0))
  /\ result (main 0 "test" "fire" 2 env_missing world0) = Ret 1
  /\ ~ In (Sleep 2) (events (main 0 "test" "fire" 2 env_missing world0))
  /\ result (main 0 "test" "none" (10 ^ 20) env_silent world0)
     = Raise (OverflowError "timestamp too large to convert to C _PyTime_t")
  /\ ~ In (Print [Lit "[TEST] Done."])
          (events (main 0 "test" "none" (10 ^ 20) env_silent world0)).
Proof.
  split; [reflexivity |]. split; [discriminate |]. split.
  - cbn. intros H. repeat (destruct H as [H | H]; [discriminate |]). exact H.
  - split; [reflexivity |]. split.
    + cbn. intros H. repeat (destruct H as [H | H]; [discriminate |]). exact H.
    + split; [reflexivity |].
      vm_compute. intros H.
      repeat (destruct H as [H | H]; [discriminate |]). exact H.
Qed.

Lemma C10_witness :
  process (animation world0) = None
  /\ terminate env_silent world0 = (Ret tt, world0, [])
  /\ is_running env_silent world0 = (Ret false, world0, [])
  /\ In ProcKill (events (terminate env_silent world_started))
  /\ now (final (terminate env_silent world_started))
     = (now world_started + 2)%Q.
Proof.
  split; [reflexivity |].
  destruct (C10_terminate_safe_without_process env_silent) as (_ & A & B).
  destruct (A world0 eq_refl) as (T & R & _).
  split; [exact T |]. split; [exact R |].
  assert (K : In ProcKill (events (terminate env_silent world_started)))
    by (cbn; auto).
  split; [exact K |].
  exact (proj2 (B world_started K)).
Defined.

End Instances.

(** * Further properties *)

(** ** The reader loop and the waits *)

Section MoreWaits.

Arguments flag : simpl never.
Arguments advance : simpl never.
Arguments run_reader : simpl never.
Arguments Event_wait : simpl never.

Lemma read_line_flag l raw a :
  flag l (fst (read_line raw a))
  = flag l a || (PyStr.strip raw =? sentinel_of l)%string.
Proof.
  unfold read_line. cbn [fst].
  destruct (PyStr.strip raw =? "READY")%string eqn:R.
  - apply String.eqb_eq in R. rewrite R.
    destruct l; cbn; unfold flag; cbn; now rewrite ?orb_true_r, ?orb_false_r.
  - destruct (PyStr.strip raw =? "BLACK")%string eqn:B.
    + apply String.eqb_eq in B. rewrite B.
      destruct l; cbn; unfold flag; cbn; now rewrite ?orb_true_r, ?orb_false_r.
    + destruct l; cbn [sentinel_of]; rewrite ?R, ?B; now rewrite orb_false_r.
Qed.

(** X1. The loop of [_read_signals] raises a latch exactly when some line,
    stripped, is its sentinel (in any position and any order); it logs one
    line per line read and touches nothing else of the object. *)
Theorem X1_read_loop_exact l lines a :
  flag l (fst (read_loop lines a)) = flag l a || has_line l lines
  /\ snd (read_loop lines a) = map signal_note lines
  /\ process (fst (read_loop lines a)) = process a
  /\ script_path (fst (read_loop lines a)) = script_path a.
Proof.
  revert a. induction lines as [| raw rest IH]; intros a.
  - cbn. now rewrite orb_false_r.
  - rewrite read_loop_cons. cbn [fst snd].
    destruct (IH (fst (read_line raw a))) as (F & L & P & S).
    rewrite F, L, P, S, read_line_flag. cbn [has_line existsb map].
    destruct (read_line_reader raw a) as (_ & P' & S').
    repeat split; auto. now rewrite orb_assoc.
Qed.



Lemma now_le_deadline q timeout :
  Qle_bool 0 timeout = true -> (q <= q + timeout)%Q.
Proof.
  intros H. apply Qle_bool_iff in H.
  rewrite <- (Qplus_0_r q) at 1.
  apply Qplus_le_compat; [apply Qle_refl | exact H].
Qed.

(** [Event.wait] with a timeout that is not negative: the result is the
    flag on return; the caller is held no longer than the timeout, and for
    the whole of it when the result is False. *)
Lemma Event_wait_bounds l timeout env w :
  Qle_bool 0 timeout = true ->
  exists b w',
    Event_wait l timeout env w = (Ret b, w', [Wait l timeout b])
    /\ flag l (animation w') = b
    /\ (now w <= now w')%Q
    /\ (now w' <= now w + timeout)%Q
    /\ (b = false -> now w' = (now w + timeout)%Q)
    /\ (flag l (animation w) = true -> w' = w).
Proof.
  intros H0. pose proof (now_le_deadline (now w) timeout H0) as Hn.
  unfold Event_wait. rewrite bind_eq. cbn [get].
  destruct (flag l (animation w)) eqn:F.
  - exists true, w. cbn. repeat split; auto using Qle_refl. discriminate.
  - assert (D : forall w2,
              w2 = advance (now w + timeout) w ->
              exists b w',
                (modify (advance (now w + timeout)) ;;
                 w' <- get ;;
                 emit (Wait l timeout (flag l (animation w'))) ;;
                 ret (flag l (animation w'))) env w
                  = (Ret b, w', [Wait l timeout b])
                /\ flag l (animation w') = b
                /\ (now w <= now w')%Q
                /\ (now w' <= now w + timeout)%Q
                /\ (b = false -> now w' = (now w + timeout)%Q)
                /\ (false = true -> w' = w)).
    { intros w2 ->. eexists _, _. split; [reflexivity |].
      rewrite advance_now, (qmax_absorb _ _ Hn).
      repeat split; auto using Qle_refl. discriminate. }
    destruct (_reader_thread (animation w)) as [[p f |] |] eqn:R;
      try (apply (D _ eq_refl)).
    destruct (set_instant l (now w) p f) as [t |] eqn:S;
      [| apply (D _ eq_refl)].
    destruct (Qle_bool t (now w + timeout)) eqn:B; [| apply (D _ eq_refl)].
    destruct (set_instant_sound l p f (now w) t (animation w) S) as [L K].
    assert (A : flag l (animation (advance t w)) = true).
    { unfold advance, run_reader. rewrite (qmax_absorb _ _ L).
      cbn [animation set_now now]. rewrite R.
      destruct (drain t p f (animation w)) as [a ms]. exact K. }
    exists true, (advance t w). split.
    + unfold bind, modify, get, emit, ret. cbn. rewrite A. reflexivity.
    + rewrite advance_now, (qmax_absorb _ _ L).
      apply Qle_bool_iff in B. repeat split; auto; discriminate.
Qed.

Lemma wait_for_eq l timeout env w b w' :
  Event_wait l timeout env w = (Ret b, w', [Wait l timeout b]) ->
  wait_for l timeout env w = (Ret b, w', wait_trace l timeout b).
Proof.
  intros E.
  destruct l; cbn [wait_for]; unfold wait_ready, wait_black;
    rewrite bind_eq; cbn [debug_log emit]; rewrite bind_eq, E;
    destruct b; reflexivity.
Qed.



End MoreWaits.

(** ** The handle and the handshake against the clock *)

Section MoreHandle.

Arguments flag : simpl never.
Arguments advance : simpl never.
Arguments run_reader : simpl never.
Arguments Event_wait : simpl never.

Ltac xcrunch :=
  cbn -[bind terminate terminate_if unfreeze_compositor show_cursor time_sleep
        time_sleep_int PYTIME_SECS_MAX hold_forever advance get_session_id
        start wait_ready wait_black
        execute_power_action run_without_animation get_animation_script
        send_ipc send_ipc_with_retry retry_from].

Ltac xstep := rewrite bind_eq; xcrunch.

Lemma is_running_eq env w :
  is_running env w
  = (Ret match process (animation w) with
         | Some p => alive (now w) p
         | None => false
         end, w, []).
Proof.
  unfold is_running. rewrite bind_eq. cbn [get].
  destruct (process (animation w)); reflexivity.
Qed.

Lemma proc_terminate_process p env w :
  process (animation w) = Some p ->
  exists w1,
    proc_terminate p env w = (Ret tt, w1, [ProcTerminate])
    /\ now w1 = now w
    /\ process (animation w1) <> None.
Proof.
  intros P.
  unfold proc_terminate, bind, emit, ask, get, when, modify, ret. cbn.
  destruct (anim_sigterm env) as [d |];
    [destruct (alive (now w) p && alive (now w + d) p) |];
    cbn; eexists; (split; [reflexivity |]); split; auto;
    cbn; congruence.
Qed.

Lemma Qle_bool_lt x y : Qle_bool x y = false <-> (y < x)%Q.
Proof.
  split; intros H.
  - apply Qnot_le_lt. intros L. apply Qle_bool_iff in L. congruence.
  - destruct (Qle_bool x y) eqn:E; [| reflexivity].
    apply Qle_bool_iff in E. exfalso. apply (Qlt_not_le _ _ H E).
Qed.

(** A kill takes effect at once exactly when its delay is not positive. *)
Lemma qmax_delay n d : Qle_bool (qmax n (n + d)) n = Qle_bool d 0.
Proof.
  unfold qmax. destruct (Qle_bool n (n + d)) eqn:A.
  - destruct (Qle_bool d 0) eqn:B.
    + apply Qle_bool_iff. apply Qle_bool_iff in B. lra.
    + apply Qle_bool_lt. apply Qle_bool_lt in B. lra.
  - apply Qle_bool_lt in A.
    assert (B : Qle_bool d 0 = true) by (apply Qle_bool_iff; lra).
    rewrite B. apply Qle_bool_iff. lra.
Qed.

(** [kill] on a process that is there: its exit is settled, no later than
    the delay of the signal, and it is there for [poll] at once exactly
    when that delay is not positive. *)
Lemma proc_kill_gone env w p :
  process (animation w) = Some p ->
  alive (now w) p = true ->
  exists w' te,
    proc_kill env w = (Ret tt, w', [ProcKill])
    /\ now w' = now w
    /\ process (animation w') = Some {| gone := Some te |}
    /\ (te <= qmax (now w) (now w + anim_sigkill env))%Q
    /\ Qle_bool te (now w) = Qle_bool (anim_sigkill env) 0.
Proof.
  intros P A.
  unfold proc_kill, bind, emit, ask, get, when, modify, ret. cbn.
  rewrite P, A. cbn [andb].
  destruct (alive (qmax (now w) (now w + anim_sigkill env)) p) eqn:B; cbn.
  - eexists _, _. split; [reflexivity |].
    rewrite run_reader_now, run_reader_process. cbn.
    repeat split; [apply Qle_refl | apply qmax_delay].
  - destruct p as [[te |]]; [| discriminate B].
    unfold alive in A, B. cbn in A, B.
    apply negb_true_iff in A. apply negb_false_iff in B.
    exists w, te. repeat split; auto.
    + now apply Qle_bool_iff.
    + rewrite A. symmetry. apply Qle_bool_lt.
      apply Qle_bool_lt in A. apply Qle_bool_iff in B.
      destruct (Qle_bool (anim_sigkill env) 0) eqn:D.
      * rewrite <- (qmax_delay (now w)) in D. apply Qle_bool_iff in D. lra.
      * now apply Qle_bool_lt in D.
Qed.

(** How [terminate] leaves the subprocess: gone by then when it went
    within the grace; killed otherwise, and gone when the kill takes
    effect. *)
Lemma terminate_exit env w :
  exists w' t,
    terminate env w = (Ret tt, w', t)
    /\ (now w <= now w')%Q
    /\ (now w' <= now w + 2)%Q
    /\ ((~ In ProcKill t
         /\ (process (animation w') = None
             \/ exists te, process (animation w') = Some {| gone := Some te |}
                           /\ (te <= now w')%Q))
        \/ (In ProcKill t
            /\ exists te,
                 process (animation w') = Some {| gone := Some te |}
                 /\ (te <= qmax (now w') (now w' + anim_sigkill env))%Q
                 /\ Qle_bool te (now w') = Qle_bool (anim_sigkill env) 0)).
Proof.
  assert (H2 : (now w <= now w + 2)%Q) by (apply now_le_deadline; reflexivity).
  unfold terminate. rewrite bind_eq. cbn [get].
  destruct (process (animation w)) as [p |] eqn:P.
  2:{ exists w, []. split; [reflexivity |].
      split; [apply Qle_refl |]. split; [exact H2 |].
      left. split; [intros [] | now left]. }
  rewrite bind_eq.
  destruct (proc_terminate_process p env w P) as (w1 & E1 & N1 & P1).
  rewrite E1. unfold try_except, proc_wait. rewrite bind_eq. cbn [get].
  assert (K : forall p1,
            process (animation w1) = Some p1 ->
            alive (now w1 + 2) p1 = true ->
            exists w' te,
              proc_kill env (advance (now w1 + 2) w1) = (Ret tt, w', [ProcKill])
              /\ now w' = (now w + 2)%Q
              /\ process (animation w') = Some {| gone := Some te |}
              /\ (te <= qmax (now w') (now w' + anim_sigkill env))%Q
              /\ Qle_bool te (now w') = Qle_bool (anim_sigkill env) 0).
  { intros p1 Q1 A1.
    assert (N2 : now (advance (now w1 + 2) w1) = (now w + 2)%Q)
      by (rewrite advance_now, N1; apply qmax_plus_2).
    destruct (proc_kill_gone env (advance (now w1 + 2) w1) p1)
      as (w' & te & E & N & G & L & B).
    - now rewrite advance_process.
    - now rewrite N2, <- N1.
    - exists w', te. rewrite N, N2 in *. repeat split; auto. }
  assert (F : forall w' te,
            now w' = (now w + 2)%Q ->
            process (animation w') = Some {| gone := Some te |} ->
            (te <= qmax (now w') (now w' + anim_sigkill env))%Q ->
            Qle_bool te (now w') = Qle_bool (anim_sigkill env) 0 ->
            (now w <= now w')%Q /\ (now w' <= now w + 2)%Q
            /\ ((~ In ProcKill [ProcTerminate; ProcWait 2 false; ProcKill]
                 /\ (process (animation w') = None
                     \/ exists te, process (animation w')
                                   = Some {| gone := Some te |}
                                   /\ (te <= now w')%Q))
                \/ (In ProcKill [ProcTerminate; ProcWait 2 false; ProcKill]
                    /\ exists te,
                         process (animation w') = Some {| gone := Some te |}
                         /\ (te <= qmax (now w') (now w' + anim_sigkill env))%Q
                         /\ Qle_bool te (now w')
                            = Qle_bool (anim_sigkill env) 0))).
  { intros w' te N G L B. rewrite N.
    split; [exact H2 |]. split; [apply Qle_refl |].
    right. split; [cbn; auto |].
    exists te. rewrite <- N. auto. }
  destruct (process (animation w1)) as [[[te |]] |] eqn:Q1; [| | congruence].
  - destruct (Qle_bool te (now w1 + 2)) eqn:B.
    + unfold bind, modify, emit. cbn.
      exists (advance te w1). eexists. split; [reflexivity |].
      apply Qle_bool_iff in B.
      rewrite advance_now, advance_process, N1 in *.
      split; [apply qmax_l |]. split; [now apply qmax_lub |].
      left. split.
      * intros [H | [H | []]]; discriminate H.
      * right. exists te. split; [exact Q1 | apply qmax_r].
    + destruct (K _ eq_refl) as (w' & te' & E & N & G & L & D).
      { unfold alive. cbn. now rewrite B. }
      unfold bind, modify, emit, raise. cbn -[proc_kill advance].
      rewrite E. eexists _, _. split; [reflexivity |]. now apply (F w' te').
  - destruct (K _ eq_refl) as (w' & te' & E & N & G & L & D); [reflexivity |].
    unfold bind, modify, emit, raise. cbn -[proc_kill advance].
    rewrite E. eexists _, _. split; [reflexivity |]. now apply (F w' te').
Qed.

(** X4. [terminate] takes no more than the 2 seconds of grace.  When the
    process went within the grace, [is_running] is False on return.  When it
    had to be killed, [kill] has not waited for it: [is_running] is still
    True on return unless the kill took effect at once, and it is False
    from the instant the kill has taken effect. *)
Theorem X4_terminate_and_is_running env w :
  exists w' t,
    terminate env w = (Ret tt, w', t)
    /\ (now w <= now w')%Q
    /\ (now w' <= now w + 2)%Q
    /\ (~ In ProcKill t -> is_running env w' = (Ret false, w', []))
    /\ (In ProcKill t ->
        is_running env w'
        = (Ret (negb (Qle_bool (anim_sigkill env) 0)), w', []))
    /\ (forall x, (now w' + anim_sigkill env <= x)%Q ->
          result (is_running env (advance x w')) = Ret false).
Proof.
  destruct (terminate_exit env w) as (w' & t & E & L1 & L2 & G).
  exists w', t. split; [exact E |]. split; [exact L1 |]. split; [exact L2 |].
  destruct G as [[NK G] | [K (te & G & L & B)]].
  - split; [| split; [intros K; now elim NK |]].
    + intros _. rewrite is_running_eq.
      destruct G as [-> | (te & -> & L)]; [reflexivity |].
      unfold alive. cbn. apply Qle_bool_iff in L. now rewrite L.
    + intros x _. rewrite is_running_eq, advance_process, advance_now.
      destruct G as [-> | (te & -> & L)]; [reflexivity |].
      unfold alive. cbn.
      assert (L' : (te <= qmax (now w') x)%Q)
        by (eapply Qle_trans; [exact L | apply qmax_l]).
      apply Qle_bool_iff in L'. now rewrite L'.
  - split; [intros NK; now elim NK |]. split.
    + intros _. rewrite is_running_eq, G. unfold alive. cbn. now rewrite B.
    + intros x Hx. rewrite is_running_eq, advance_process, advance_now, G.
      unfold alive. cbn.
      assert (L' : (te <= qmax (now w') x)%Q).
      { eapply Qle_trans; [exact L |].
        apply qmax_lub; [apply qmax_l |].
        eapply Qle_trans; [exact Hx | apply qmax_r]. }
      apply Qle_bool_iff in L'. now rewrite L'.
Qed.

Lemma start_now env w : now (final (start env w)) = now w.
Proof.
  unfold start. rewrite bind_eq. cbn [get].
  destruct (script_path (animation w)) as [path |]; [| reflexivity].
  rewrite bind_eq. cbn [os_path_exists]. rewrite bind_eq. cbn [ask ret].
  destruct (path_exists env path); cbn [negb]; [| reflexivity].
  cbn -[run_reader]. now rewrite run_reader_now.
Qed.

(** X5. Once the animation has started, [execute_power_action] begins no
    later than 35 seconds after [main] was entered (5 for READY, 30 for
    BLACK), whatever the animation does; and exactly 35 seconds after when
    both waits time out. *)
Theorem X5_handshake_at_most_35_seconds fuel action name hold_time env w path :
  name <> "none" ->
  get_animation_script env name = Some path ->
  path_exists env path = true ->
  exists ready black w1,
    (now w <= now w1)%Q
    /\ (now w1 <= now w + 35)%Q
    /\ (ready = false -> black = false -> now w1 = (now w + 5 + 30)%Q)
    /\ forall r w2 t,
         execute_power_action fuel action (Some TheAnimation) hold_time env w1
           = (r, w2, t) ->
         main fuel action name hold_time env w
           = (exit_of r, w2,
              preamble action name ++ handshake_trace name path ready black ++ t).
Proof.
  intros Hn G X. apply String.eqb_neq in Hn.
  pose proof (start_run env (set_animation (__init__ (Some path)) w)) as S.
  pose proof (start_now env (set_animation (__init__ (Some path)) w)) as N0.
  cbn [animation set_animation script_path __init__] in S. rewrite X in S.
  destruct S as (w0 & S & _). rewrite S in N0. cbn in N0.
  destruct (Event_wait_bounds Ready 5 env w0 eq_refl)
    as (ready & wr & Er & _ & Lr & Ur & Tr & _).
  destruct (Event_wait_bounds Black 30 env wr eq_refl)
    as (black & wb & Eb & _ & Lb & Ub & Tb & _).
  apply wait_for_eq in Er, Eb. cbn [wait_for] in Er, Eb.
  exists ready, black, wb. rewrite N0 in *.
  split; [eapply Qle_trans; eauto |].
  split; [lra |].
  split; [intros A B; rewrite (Tb B), (Tr A); reflexivity |].
  intros r w2 t K.
  unfold main. xcrunch. repeat xstep. rewrite Hn. repeat xstep. rewrite G, S.
  xcrunch. repeat xstep. rewrite Er.
  destruct ready; xcrunch; repeat xstep; rewrite Eb;
    destruct black; xcrunch; repeat xstep; rewrite K;
    destruct r; xcrunch; rewrite ?app_nil_r; reflexivity.
Qed.




End MoreHandle.

(** ** The session lookup *)

Section Session.

Lemma append_empty_r (s : string) : (s ++ "")%string = s.
Proof. induction s as [| c r IH]; cbn; [reflexivity | now rewrite IH]. Qed.

Lemma append_snoc (w : string) (c : ascii) (s : string) :
  ((w ++ String c "") ++ s)%string = (w ++ String c s)%string.
Proof. induction w as [| d r IH]; cbn; [reflexivity | now rewrite IH]. Qed.

Lemma split_ws_aux_some w s :
  exists rest, PyStr.split_ws_aux (Some w) s = (w ++ take_token s)%string :: rest.
Proof.
  revert w. induction s as [| c r IH]; intros w; cbn.
  - eexists. now rewrite append_empty_r.
  - destruct (PyStr.isspace c).
    + eexists. now rewrite append_empty_r.
    + destruct (IH (w ++ String c "")%string) as (rest & E).
      rewrite E. eexists. now rewrite append_snoc.
Qed.

Lemma lstrip_head s c r : PyStr.lstrip s = String c r -> PyStr.isspace c = false.
Proof.
  induction s as [| d t IH]; cbn; [discriminate |].
  destruct (PyStr.isspace d) eqn:D; [exact IH |].
  intros H. injection H as <- _. exact D.
Qed.

Lemma lstrip_empty s : PyStr.lstrip s = "" <-> all_space s = true.
Proof.
  induction s as [| d t IH]; cbn; [tauto |].
  destruct (PyStr.isspace d); cbn; [exact IH |].
  split; discriminate.
Qed.

(** [s.split()] begins with the first token of [s]. *)
Lemma split_ws_head s : hd "" (PyStr.split_ws s) = take_token (PyStr.lstrip s).
Proof.
  unfold PyStr.split_ws. induction s as [| c r IH]; cbn; [reflexivity |].
  destruct (PyStr.isspace c) eqn:C; [exact IH |].
  destruct (split_ws_aux_some (String c "") r) as (rest & E).
  cbn in E. rewrite E. cbn. now rewrite C.
Qed.

Lemma take_token_rstrip s : take_token (PyStr.rstrip s) = take_token s.
Proof.
  induction s as [| c r IH]; cbn; [reflexivity |].
  destruct (PyStr.rstrip r) as [| d t] eqn:R.
  - destruct (PyStr.isspace c) eqn:C; cbn; [reflexivity |].
    rewrite C, <- IH. reflexivity.
  - cbn [take_token]. destruct (PyStr.isspace c); [reflexivity |].
    now rewrite <- IH.
Qed.

Lemma rstrip_head s c r : PyStr.rstrip s = String c r -> exists t, s = String c t.
Proof.
  destruct s as [| d t]; cbn; [discriminate |].
  destruct (PyStr.rstrip t); [destruct (PyStr.isspace d) |];
    intros H; try discriminate; injection H as <- _; eauto.
Qed.

Lemma split_on_head sep s :
  exists w ws, PyStr.split_on sep s = w :: ws.
Proof.
  destruct s as [| c r]; cbn; [eauto |].
  destruct (Ascii.eqb c sep); [eauto |].
  destruct (PyStr.split_on sep r); eauto.
Qed.

Lemma take_token_first_line s :
  take_token (hd "" (PyStr.split_on PyStr.LF s)) = take_token s.
Proof.
  induction s as [| c r IH]; cbn [PyStr.split_on]; [reflexivity |].
  destruct (Ascii.eqb c PyStr.LF) eqn:E.
  - apply Ascii.eqb_eq in E. subst c. reflexivity.
  - destruct (split_on_head PyStr.LF r) as (w & ws & S). rewrite S in *.
    cbn in *. now rewrite IH.
Qed.

Lemma first_token_strip out :
  first_token (PyStr.split_on PyStr.LF (PyStr.strip out))
  = hd "" (PyStr.split_ws out).
Proof.
  rewrite split_ws_head. unfold PyStr.strip.
  rewrite <- (take_token_rstrip (PyStr.lstrip out)).
  destruct (PyStr.rstrip (PyStr.lstrip out)) as [| c r] eqn:S; [reflexivity |].
  destruct (rstrip_head _ _ _ S) as (t & L).
  pose proof (lstrip_head _ _ _ L) as C.
  rewrite <- (take_token_first_line (String c r)).
  destruct (split_on_head PyStr.LF (String c r)) as (w & ws & P).
  rewrite P. cbn [first_token hd].
  assert (W : exists w', w = String c w').
  { cbn [PyStr.split_on] in P. destruct (Ascii.eqb c PyStr.LF) eqn:E.
    - apply Ascii.eqb_eq in E. subst c. discriminate C.
    - destruct (PyStr.split_on PyStr.LF r); inversion P; eauto. }
  destruct W as (w' & ->).
  unfold PyStr.split_ws. cbn. rewrite C.
  destruct (split_ws_aux_some (String c "") w') as (rest & E).
  cbn in E. now rewrite E.
Qed.

(** X8. The session id is the first whitespace-separated token of the
    whole output of [loginctl list-sessions] (leading blank lines and
    indentation are skipped), the empty string when there is none or when
    running [loginctl] raised; the lookup changes nothing. *)
Theorem X8_session_id_is_first_token env w :
  get_session_id env w
  = (Ret match list_sessions env with
         | Some stdout => hd "" (PyStr.split_ws stdout)
         | None => ""
         end, w, [Run LIST_SESSIONS]).
Proof.
  unfold get_session_id, bind, emit, ask. cbn.
  destruct (list_sessions env) as [out |]; cbn; [| reflexivity].
  now rewrite first_token_strip.
Qed.

Lemma take_token_no_space s : no_space (take_token s) = true.
Proof.
  induction s as [| c r IH]; cbn; [reflexivity |].
  destruct (PyStr.isspace c) eqn:C; cbn; [reflexivity |]. now rewrite C.
Qed.

(** X9. The session id never contains a space character, and it is empty
    (so that logout gives up) exactly when [loginctl] could not be run or
    printed nothing but space characters. *)
Theorem X9_session_id_shape env w sid :
  result (get_session_id env w) = Ret sid ->
  no_space sid = true
  /\ (sid = "" <->
      match list_sessions env with
      | Some stdout => all_space stdout = true
      | None => True
      end).
Proof.
  unfold get_session_id, bind, emit, ask. cbn.
  destruct (list_sessions env) as [out |]; cbn; intros H; injection H as <-.
  2:{ split; [reflexivity | tauto]. }
  rewrite first_token_strip, split_ws_head. split.
  - apply take_token_no_space.
  - rewrite <- lstrip_empty.
    destruct (PyStr.lstrip out) as [| c r] eqn:L; [tauto |].
    pose proof (lstrip_head _ _ _ L) as C. cbn. rewrite C.
    split; discriminate.
Qed.

End Session.

(** ** Animation discovery *)

Section Discovery.

Ltac find_dir_case :=
  repeat split; intros;
  repeat match goal with
         | H : Some _ = Some _ |- _ => injection H as H; subst
         | H : _ /\ _ |- _ => destruct H
         | H : forall e, Some ?x = Some e -> _ |- _ => specialize (H _ eq_refl)
         | H : _ \/ _ |- _ => destruct H
         end;
  try discriminate; try congruence; auto.

Lemma find_dir_sound env d :
  _find_animations_dir env = Some d ->
  path_isdir env d = true
  /\ (environ_effects_dir env = Some d \/ d = xdg_dir env \/ d = sibling_dir env).
Proof.
  unfold _find_animations_dir.
  destruct (environ_effects_dir env) as [[| c r] |] eqn:E;
    cbn [PyStr.truthy andb];
    try destruct (path_isdir env (String c r)) eqn:D;
    destruct (path_isdir env (xdg_dir env)) eqn:X;
    destruct (path_isdir env (sibling_dir env)) eqn:S;
    find_dir_case.
Qed.

(** X10. The fallback search returns a directory that exists, taken from
    the environment variable, the user configuration or the sibling
    package, in this order of preference; it returns None exactly when none
    of the three is usable. *)
Theorem X10_find_animations_dir env :
  (forall d, _find_animations_dir env = Some d ->
     path_isdir env d = true
     /\ (environ_effects_dir env = Some d \/ d = xdg_dir env \/ d = sibling_dir env))
  /\ (forall e, environ_effects_dir env = Some e -> e <> "" ->
        path_isdir env e = true -> _find_animations_dir env = Some e)
  /\ (_find_animations_dir env = None <->
      (forall e, environ_effects_dir env = Some e ->
                 e = "" \/ path_isdir env e = false)
      /\ path_isdir env (xdg_dir env) = false
      /\ path_isdir env (sibling_dir env) = false).
Proof.
  unfold _find_animations_dir.
  destruct (environ_effects_dir env) as [[| c r] |] eqn:E;
    cbn [PyStr.truthy andb];
    try destruct (path_isdir env (String c r)) eqn:D;
    destruct (path_isdir env (xdg_dir env)) eqn:X;
    destruct (path_isdir env (sibling_dir env)) eqn:S;
    find_dir_case.
Qed.

Lemma str_app_assoc (a b c : string) :
  ((a ++ b) ++ c)%string = (a ++ b ++ c)%string.
Proof. induction a as [| x a IH]; cbn; [reflexivity | now rewrite IH]. Qed.

Lemma length_snoc x c : String.length (x ++ String c "") = S (String.length x).
Proof. induction x as [| h t IH]; cbn; [reflexivity | now rewrite IH]. Qed.

Lemma substring_last x c :
  substring (String.length x) 1 (x ++ String c "") = String c "".
Proof. induction x as [| h t IH]; cbn; [reflexivity | exact IH]. Qed.

Lemma ends_slash_snoc x c : ends_slash (x ++ String c "") = Ascii.eqb c "/".
Proof.
  unfold ends_slash. rewrite length_snoc. cbn [Nat.sub].
  rewrite Nat.sub_0_r, substring_last. cbn.
  destruct (Ascii.eqb c "/"); reflexivity.
Qed.

Lemma snoc_view s :
  s <> "" ->
  exists x c, s = (x ++ String c "")%string
              /\ (no_slash s = true -> Ascii.eqb c "/" = false).
Proof.
  induction s as [| h t IH]; [congruence |]. intros _.
  destruct t as [| h' t'].
  - exists "", h. split; [reflexivity |]. cbn.
    destruct (Ascii.eqb h "/"); [discriminate | reflexivity].
  - destruct IH as (x & c & E & N); [discriminate |].
    exists (String h x), c. split; [cbn; now rewrite E |].
    intros H. apply N.
    cbn [no_slash] in H. apply andb_true_iff in H. apply H.
Qed.

(** [os.path.join(a, b)] by the first character of [b]. *)
Lemma path_join2_cons a c r :
  PyStr.path_join2 a (String c r) =
    if Ascii.eqb c "/" then String c r
    else match a with
         | EmptyString => String c r
         | _ => (with_slash a ++ String c r)%string
         end.
Proof.
  unfold PyStr.path_join2, with_slash, ends_slash.
  destruct (Ascii.eqb c "/") eqn:E.
  - apply Ascii.eqb_eq in E. subst c. reflexivity.
  - assert (K : forall (X : Type) (u v : X),
              match c with
              | "/"%char => u
              | _ => v
              end = v).
    { intros X u v.
      destruct c as [[] [] [] [] [] [] [] []]; try reflexivity. discriminate E. }
    rewrite K. destruct a as [| h t]; [reflexivity |].
    destruct (substring (String.length (String h t) - 1) 1 (String h t) =? "/")%string;
      [reflexivity | now rewrite str_app_assoc].
Qed.

(** X11. With the fallback discovery and a directory [d] found: for a
    plain name (not empty, without "/") the script is
    [d/name/animate.py]; a name that begins with "/" makes [os.path.join]
    drop the directory, so that the script is looked for under that name. *)
Theorem X11_script_path env d name :
  discovery env = None ->
  _find_animations_dir env = Some d ->
  d <> "" ->
  (name <> "" -> no_slash name = true ->
   get_animation_script env name
     = Some (with_slash d ++ name ++ "/animate.py")%string)
  /\ (forall x c, c <> "/"%char ->
        get_animation_script env (String "/" (x ++ String c ""))
          = Some (String "/" (x ++ String c "") ++ "/animate.py")%string).
Proof.
  intros D F Hd. unfold get_animation_script. rewrite D, F.
  destruct d as [| d0 dr]; [congruence |]. cbn [PyStr.truthy].
  unfold PyStr.path_join. cbn [fold_left]. split.
  - intros Hn Hs.
    destruct (snoc_view name Hn) as (x & c & E & N). specialize (N Hs).
    destruct name as [| n0 nr]; [congruence |].
    cbn [no_slash] in Hs. apply andb_true_iff in Hs. destruct Hs as [H0 _].
    apply negb_true_iff in H0.
    rewrite (path_join2_cons (String d0 dr) n0 nr), H0.
    change "animate.py" with (String "a" "nimate.py").
    rewrite path_join2_cons. cbn [Ascii.eqb Bool.eqb].
    assert (P : with_slash (with_slash (String d0 dr) ++ String n0 nr)
                = (with_slash (String d0 dr) ++ String n0 nr ++ "/")%string).
    { rewrite E, <- str_app_assoc. unfold with_slash at 1.
      now rewrite ends_slash_snoc, N, !str_app_assoc. }
    destruct (with_slash (String d0 dr) ++ String n0 nr)%string eqn:Q.
    + unfold with_slash in Q. destruct (ends_slash (String d0 dr)); discriminate.
    + rewrite P. f_equal. now rewrite !str_app_assoc.
  - intros x c Hc.
    rewrite (path_join2_cons (String d0 dr) "/" (x ++ String c "")).
    cbn [Ascii.eqb Bool.eqb].
    change "animate.py" with (String "a" "nimate.py").
    rewrite path_join2_cons. cbn [Ascii.eqb Bool.eqb].
    apply Ascii.eqb_neq in Hc.
    change (String "/" (x ++ String c "")) with (String "/" x ++ String c "")%string.
    unfold with_slash. rewrite ends_slash_snoc, Hc.
    cbn. now rewrite !str_app_assoc.
Qed.

Lemma insert_sorted_perm x l : Permutation (insert_sorted x l) (x :: l).
Proof.
  induction l as [| y r IH]; cbn; [reflexivity |].
  destruct (String.leb x y); [reflexivity |].
  rewrite IH. apply perm_swap.
Qed.

Lemma insert_sorted_sorted x l :
  Sorted str_le l -> Sorted str_le (insert_sorted x l).
Proof.
  induction l as [| y r IH]; intros S; cbn.
  - repeat constructor.
  - destruct (String.leb x y) eqn:E.
    + constructor; [exact S | constructor; exact E].
    + inversion S as [| ? ? Sr Hr]; subst.
      constructor; [now apply IH |].
      assert (Y : str_le y x)
        by (destruct (String.leb_total x y) as [H | H]; [congruence | exact H]).
      destruct r as [| z r']; cbn.
      * constructor. exact Y.
      * destruct (String.leb x z); constructor; [exact Y |].
        inversion Hr; assumption.
Qed.

Lemma py_sorted_perm l : Permutation (py_sorted l) l.
Proof.
  induction l as [| x r IH]; cbn; [reflexivity |].
  rewrite insert_sorted_perm. now constructor.
Qed.

Lemma py_sorted_sorted l : Sorted str_le (py_sorted l).
Proof.
  induction l as [| x r IH]; cbn; [constructor |].
  now apply insert_sorted_sorted.
Qed.

(** X12. [list_animations] (the fallback) returns, in increasing order, the
    entries of the animations directory that have an [animate.py], each as
    often as [os.listdir] gives it, and nothing when no directory is
    found. *)
Theorem X12_list_animations env os_listdir :
  Sorted (fun a b => String.leb a b = true) (list_animations env os_listdir)
  /\ (forall d, _find_animations_dir env = Some d -> d <> "" ->
        Permutation (list_animations env os_listdir)
          (filter (fun name =>
                     path_exists env (PyStr.path_join d [name; "animate.py"]))
                  (os_listdir d)))
  /\ (_find_animations_dir env = None -> list_animations env os_listdir = []).
Proof.
  unfold list_animations. repeat split.
  - destruct (_find_animations_dir env) as [d |]; [| constructor].
    destruct (negb (PyStr.truthy d) || negb (path_isdir env d));
      [constructor | apply py_sorted_sorted].
  - intros d F Hd. rewrite F.
    destruct (find_dir_sound env d F) as [I _]. rewrite I.
    destruct d; [congruence |]. cbn. apply py_sorted_perm.
  - intros F. now rewrite F.
Qed.

(** X13. With the fallback discovery, every value that [parse_args]
    offers for [--animation] is "none" or the name of an animation whose
    script is found and exists, so that [start] spawns it and returns
    True. *)
Theorem X13_every_choice_starts env os_listdir name :
  discovery env = None ->
  In name (animation_choices (list_animations env os_listdir)) ->
  name = "none"
  \/ exists path,
       get_animation_script env name = Some path
       /\ path_exists env path = true
       /\ forall w, exists w',
            start env (set_animation (__init__ (Some path)) w)
              = (Ret true, w',
                 [Debug [Lit "Starting animation: "; PStr path];
                  SpawnAnimation ["python3"; path]]).
Proof.
  intros D H.
  assert (A : name = "none" \/ In name (list_animations env os_listdir)).
  { unfold animation_choices in H.
    destruct (list_animations env os_listdir) as [| a l]; cbn in H.
    - destruct H as [<- | []]. now left.
    - destruct H as [<- | H]; [right; now left |].
      apply in_app_or in H.
      destruct H as [H | [<- | []]]; [right; now right | now left]. }
  destruct A as [-> | A]; [now left | right].
  unfold list_animations in A.
  destruct (_find_animations_dir env) as [d |] eqn:F; [| destruct A].
  destruct (negb (PyStr.truthy d) || negb (path_isdir env d)) eqn:C;
    [destruct A |].
  apply orb_false_iff in C. destruct C as [T _]. apply negb_false_iff in T.
  apply (Permutation_in _ (py_sorted_perm _)) in A.
  apply filter_In in A. destruct A as [_ X].
  exists (PyStr.path_join d [name; "animate.py"]).
  split; [unfold get_animation_script; now rewrite D, F, T |].
  split; [exact X |].
  intros w.
  pose proof (start_run env (set_animation
                (__init__ (Some (PyStr.path_join d [name; "animate.py"]))) w)) as S.
  cbn [animation set_animation script_path __init__] in S. rewrite X in S.
  destruct S as (w' & S & _). now exists w'.
Qed.

End Discovery.

(** ** What the driver launches, and when it returns *)

Section MoreDriver.

Arguments flag : simpl never.
Arguments advance : simpl never.
Arguments run_reader : simpl never.

Ltac ycrunch :=
  cbn -[bind terminate terminate_if unfreeze_compositor show_cursor time_sleep
        time_sleep_int PYTIME_SECS_MAX hold_forever advance get_session_id
        start wait_ready wait_black
        execute_power_action run_without_animation get_animation_script
        send_ipc send_ipc_with_retry retry_from session_token].

Ltac ystep := rewrite bind_eq; ycrunch.

Lemma action_cases action :
  In action ["shutdown"; "reboot"; "logout"; "suspend"; "hibernate"; "windows"]
  \/ dict_get POWER_COMMANDS action = None.
Proof.
  unfold POWER_COMMANDS. cbn [dict_get].
  repeat match goal with
         | |- context [(action =? ?s)%string] =>
             destruct (String.eqb_spec action s);
             [subst; left; cbn; tauto |]
         end.
  right. destruct (action =? "test")%string; reflexivity.
Qed.

Lemma get_session_id_token env w :
  get_session_id env w = (Ret (session_token env), w, [Run LIST_SESSIONS]).
Proof.
  unfold get_session_id, session_token, bind, emit, ask. cbn.
  destruct (list_sessions env) as [out |]; cbn; [| reflexivity].
  now rewrite first_token_strip.
Qed.

(** Stopping the animation (if a handle is given) and the IPC cleanup,
    followed by [k]. *)
Lemma cleanup_then animation retry (k : M unit) env w :
  exists w3 t,
    launched t = []
    /\ forall tk r w4, k env w3 = (r, w4, tk) ->
         (terminate_if animation ;;
          unfreeze_compositor retry ;; show_cursor retry ;; k) env w
           = (r, w4, t ++ tk).
Proof.
  destruct animation as [[] |].
  - destruct (cleanup_tail retry k env w)
      as (w1 & tterm & j1 & r1 & j2 & r2 & w3 & t & K & _ & _ & _ & _ & _ & _ & L
          & _).
    exists w3, t. split; [exact L | exact K].
  - destruct (unfreeze_compositor_run retry env w)
      as (j1 & r1 & w2 & t2 & E2 & _ & _ & L2 & _).
    destruct (show_cursor_run retry env w2)
      as (j2 & r2 & w3 & t3 & E3 & _ & _ & L3 & _).
    exists w3, (t2 ++ t3). split; [now rewrite launched_app, L2, L3 |].
    intros tk r w4 K. cbn [terminate_if].
    rewrite bind_eq. cbn [ret]. rewrite bind_eq, E2, bind_eq, E3, K.
    cbn [app]. now rewrite app_assoc.
Qed.

Lemma hold_launched fuel env w :
  launched (events (hold_forever fuel env w)) = []
  /\ result (hold_forever fuel env w) = Holding.
Proof.
  destruct (hold_forever_run fuel env w) as (w' & E). rewrite E.
  split; [apply launched_sleeps | reflexivity].
Qed.

(** The animated path launches [power_launches]. *)
Lemma execute_launched fuel action animation hold_time env w :
  launched (events (execute_power_action fuel action animation hold_time env w))
  = power_launches env action.
Proof.
  unfold power_launches.
  destruct (action_cases action) as [H | H].
  - cbn in H.
    destruct H as [<- | [<- | [<- | [<- | [<- | [<- | []]]]]]];
      unfold execute_power_action; ycrunch; repeat ystep.
    + destruct (hold_forever_run fuel env w) as (w' & E). rewrite E.
      cbn. now rewrite launched_sleeps.
    + destruct (hold_forever_run fuel env w) as (w' & E). rewrite E.
      cbn. now rewrite launched_sleeps.
    + rewrite get_session_id_token. ycrunch.
      destruct (PyStr.truthy (session_token env)); ycrunch; repeat ystep.
      * destruct (hold_forever_run fuel env w) as (w' & E). rewrite E.
        cbn. now rewrite launched_sleeps.
      * destruct (terminate_run env w) as (w' & t & E & T & _).
        destruct animation as [[] |]; cbn [terminate_if];
          [rewrite E | cbn [ret]]; ycrunch; [| reflexivity].
        rewrite !app_nil_r. now destruct (terminate_trace_quiet _ T) as [_ ->].
    + rewrite time_sleep_run by reflexivity.
      destruct (cleanup_then animation true
                  (debug_log [Lit "Resumed from suspend/hibernate, compositor unfrozen"])
                  env (advance (now w + 3) w)) as (w3 & t & L & K).
      cbn -[advance bind terminate_if unfreeze_compositor show_cursor].
      rewrite (K _ _ _ eq_refl). cbn. now rewrite launched_app, L.
    + rewrite time_sleep_run by reflexivity.
      destruct (cleanup_then animation true
                  (debug_log [Lit "Resumed from suspend/hibernate, compositor unfrozen"])
                  env (advance (now w + 3) w)) as (w3 & t & L & K).
      cbn -[advance bind terminate_if unfreeze_compositor show_cursor].
      rewrite (K _ _ _ eq_refl). cbn. now rewrite launched_app, L.
    + destruct (fst (efibootmgr env) =? 0); ycrunch; repeat ystep;
        destruct (hold_forever_run fuel env w) as (w' & E); rewrite E;
        cbn; now rewrite launched_sleeps.
  - rewrite H. unfold execute_power_action. rewrite H. repeat ystep.
    destruct (time_sleep_int_run hold_time env w)
      as [(_ & _ & E) | (e & _ & E)]; rewrite E.
    + destruct (cleanup_then animation false
                  (debug_log [Lit "[TEST] Done"] ;; print [Lit "[TEST] Done."])
                  env (advance (now w + inject_Z hold_time) w))
        as (w3 & t & L & K).
      cbn -[advance bind terminate_if unfreeze_compositor show_cursor].
      rewrite (K _ _ _ eq_refl). cbn. now rewrite launched_app, L.
    + reflexivity.
Qed.

(** The path without animation, for every action. *)
Lemma run_plain action hold_time env w :
  exists r w' t,
    run_without_animation action hold_time env w = (r, w', t)
    /\ launched t = power_launches env action
    /\ forallb is_plain t = true
    /\ ipc_calls w' = ipc_calls w
    /\ ((r = Ret tt
         /\ actions t
            = map Run (power_launches env action)
              ++ match dict_get POWER_COMMANDS action with
                 | None => [Sleep (inject_Z hold_time)]
                 | Some _ => []
                 end
         /\ (dict_get POWER_COMMANDS action = None ->
             0 <= hold_time <= PYTIME_SECS_MAX
             /\ sleep_error env (now w) hold_time = None))
        \/ (exists e, r = Raise e
                      /\ dict_get POWER_COMMANDS action = None
                      /\ sleep_refusal env (now w) hold_time e)).
Proof.
  unfold power_launches.
  destruct (action_cases action) as [H | H].
  - cbn in H.
    destruct H as [<- | [<- | [<- | [<- | [<- | [<- | []]]]]]];
      unfold run_without_animation; ycrunch; repeat ystep;
      try (eexists _, _, _; split; [reflexivity |]; cbn;
           repeat split; auto; left; repeat split; auto; discriminate).
    rewrite get_session_id_token. ycrunch.
    destruct (PyStr.truthy (session_token env)); ycrunch; repeat ystep;
      eexists _, _, _; (split; [reflexivity |]); cbn;
      repeat split; auto; left; repeat split; auto; discriminate.
  - rewrite H. unfold run_without_animation. rewrite H. repeat ystep.
    destruct (time_sleep_int_run hold_time env w)
      as [(R & S & E) | (e & R & E)]; rewrite E; ycrunch.
    + eexists _, _, _. split; [reflexivity |]. cbn.
      rewrite advance_ipc. repeat split; auto.
    + eexists _, _, _. split; [reflexivity |]. cbn.
      repeat split; auto. right. exists e. auto.
Qed.

(** X14. What a run launches depends on the action and on the session
    listing only: the animated path and the path without animation launch
    the same programs in the same order (nothing for a test or an unknown
    action; the session listing, then [loginctl terminate-session] with the
    session found, never with the empty placeholder, for logout; the
    boot-entry helper before the reboot for windows). *)
Theorem X14_same_launches fuel action animation hold_time env w w0 :
  launched (events (execute_power_action fuel action animation hold_time env w))
    = power_launches env action
  /\ launched (events (run_without_animation action hold_time env w0))
    = power_launches env action
  /\ ~ In ["loginctl"; "terminate-session"; ""] (power_launches env action).
Proof.
  split; [apply execute_launched |]. split.
  - destruct (run_plain action hold_time env w0) as (r & w' & t & E & L & _).
    now rewrite E.
  - unfold power_launches.
    destruct (action_cases action) as [H | H]; [| now rewrite H].
    cbn in H.
    destruct H as [<- | [<- | [<- | [<- | [<- | [<- | []]]]]]]; cbn;
      try (intros K; repeat (destruct K as [K | K]; [discriminate |]);
           exact K).
    destruct (session_token env) as [| c r] eqn:S; cbn;
      intros K; repeat (destruct K as [K | K]; [discriminate |]); exact K.
Qed.

(** X15. Without animation [main] only logs, prints, runs programs and
    waits for them, and sleeps (test mode): no animation is spawned, no
    wait, no IPC request, nothing detached, no hold loop.  It returns 0,
    except that a test whose hold [time.sleep] refuses ends by the
    exception of [time.sleep]: [OverflowError] beyond 9223372036 seconds on
    either side of zero, [ValueError] for a negative hold within them,
    [OSError] when the clock of the platform refuses the deadline. *)
Theorem X15_main_without_animation fuel action hold_time env w :
  exists r w' t,
    main fuel action "none" hold_time env w
      = (r, w', preamble action "none" ++ t)
    /\ forallb is_plain t = true
    /\ ipc_calls w' = ipc_calls w
    /\ ((r = Ret 0
         /\ actions t
            = map Run (power_launches env action)
              ++ match dict_get POWER_COMMANDS action with
                 | None => [Sleep (inject_Z hold_time)]
                 | Some _ => []
                 end
         /\ (dict_get POWER_COMMANDS action = None ->
             0 <= hold_time <= PYTIME_SECS_MAX
             /\ sleep_error env (now w) hold_time = None))
        \/ (exists e, r = Raise e
                      /\ dict_get POWER_COMMANDS action = None
                      /\ sleep_refusal env (now w) hold_time e)).
Proof.
  destruct (run_plain action hold_time env w) as (r & w' & t & E & _ & P & I & R).
  rewrite main_none, E. exists (exit_of r), w', t.
  split; [reflexivity |]. split; [exact P |]. split; [exact I |].
  destruct R as [(-> & A & S) | (e & -> & N & H)]; [left | right]; auto.
  exists e. auto.
Qed.

(** X16. [main] returns only 0 or 1, and it returns 1 exactly when an
    animation was asked for whose script path is given by the discovery but
    does not exist. *)
Theorem X16_exit_code fuel action name hold_time env w :
  (forall z, result (main fuel action name hold_time env w) = Ret z ->
     z = 0 \/ z = 1)
  /\ (result (main fuel action name hold_time env w) = Ret 1 <->
      name <> "none"
      /\ exists path, get_animation_script env name = Some path
                      /\ path_exists env path = false).
Proof.
  destruct (name =? "none")%string eqn:Hn.
  - apply String.eqb_eq in Hn. subst name. rewrite main_none.
    destruct (run_without_animation action hold_time env w) as [[r w'] t].
    unfold result. cbn [fst].
    split.
    + intros z H. destruct r; cbn in H; try discriminate.
      injection H as <-. now left.
    + split.
      * intros H. destruct r; discriminate.
      * intros [H _]. congruence.
  - assert (Hn' : name <> "none") by now apply String.eqb_neq.
    destruct (get_animation_script env name) as [path |] eqn:G.
    + destruct (path_exists env path) eqn:X.
      * destruct (handshake_run fuel action name hold_time env w path Hn G X)
          as (ready & black & w1 & K).
        destruct (execute_power_action fuel action (Some TheAnimation)
                    hold_time env w1) as [[r w2] t] eqn:E.
        rewrite (K _ _ _ eq_refl). unfold result. cbn [fst]. split.
        -- intros z H. destruct r; cbn in H; try discriminate.
           injection H as <-. now left.
        -- split.
           ++ intros H. destruct r; discriminate.
           ++ intros (_ & p & P & Y). congruence.
      * destruct (main_script_missing fuel action name hold_time env w path Hn G X)
          as [_ E].
        rewrite E. unfold result. cbn [fst]. split.
        -- intros z H. injection H as <-. now right.
        -- split; [| reflexivity]. intros _. split; [exact Hn' |].
           now exists path.
    + rewrite main_no_script by assumption. unfold result. cbn [fst]. split.
      * discriminate.
      * split; [discriminate |]. intros (_ & p & P & _). discriminate.
Qed.

Lemma hold_forever_frame fuel : forall env w,
  exists w',
    hold_forever fuel env w = (Holding, w', repeat (Sleep 1) fuel)
    /\ process (animation w') = process (animation w)
    /\ ipc_calls w' = ipc_calls w.
Proof.
  induction fuel as [| n IH]; intros env w.
  - exists w. repeat split.
  - cbn [hold_forever]. rewrite bind_eq, time_sleep_run by reflexivity.
    destruct (IH env (advance (now w + 1) w)) as (w' & E & P & I). rewrite E.
    exists w'. split; [reflexivity |].
    now rewrite P, I, advance_process, advance_ipc.
Qed.

(** X17. When the animated path launches a power command other than
    suspend or hibernate (shutdown, reboot, windows, or logout with a
    session), everything before the power command is run and waited for,
    the power command itself is detached, and from then on the function
    only sleeps, one second at a time, for ever: it never terminates the
    animation and never sends an IPC request. *)
Theorem X17_hold_leaves_animation_alone fuel action anim hold_time env w :
  In action ["shutdown"; "reboot"; "windows"]
  \/ (action = "logout" /\ session_token env <> "") ->
  exists w' t,
    execute_power_action fuel action anim hold_time env w = (Holding, w', t)
    /\ actions t
       = map Run (removelast (power_launches env action))
         ++ [Popen (last (power_launches env action) [])]
         ++ repeat (Sleep 1) fuel
    /\ process (animation w') = process (animation w)
    /\ ipc_calls w' = ipc_calls w.
Proof.
  intros H. destruct (hold_forever_frame fuel env w) as (w' & E & P & I).
  assert (A : forall n, actions (repeat (Sleep 1) n) = repeat (Sleep 1) n).
  { induction n as [| n IH]; cbn; [reflexivity | now rewrite IH]. }
  unfold power_launches.
  destruct H as [[<- | [<- | [<- | []]]] | [-> S]];
    unfold execute_power_action; ycrunch; repeat ystep.
  - rewrite E. exists w'. eexists. split; [reflexivity |].
    cbn. rewrite A. auto.
  - rewrite E. exists w'. eexists. split; [reflexivity |].
    cbn. rewrite A. auto.
  - destruct (fst (efibootmgr env) =? 0); ycrunch; repeat ystep; rewrite E;
      exists w'; eexists; (split; [reflexivity |]); cbn; rewrite A; auto.
  - rewrite get_session_id_token. ycrunch.
    destruct (session_token env) as [| c r] eqn:T; [congruence |].
    cbn [PyStr.truthy]. ycrunch. repeat ystep. rewrite E.
    exists w'. eexists. split; [reflexivity |]. cbn. rewrite A. auto.
Qed.

End MoreDriver.

(** ** The bytes of an IPC request *)

Section WireProofs.

Lemma byte_of_N_to n : (n < 256)%N -> Byte.to_N (Wire.byte_of_N n) = n.
Proof.
  intros H. unfold Wire.byte_of_N.
  destruct (Byte.of_N n) as [b |] eqn:E.
  - now apply Byte.to_of_N.
  - apply Byte.of_N_None_iff in E. lia.
Qed.

(** X18. The frame of a request is the 4-byte little-endian length of the
    message followed by the message: the receiver reads the length back
    and finds exactly the message after it.  A message of 2^32 bytes or
    more has no frame ([OverflowError], which [send_ipc] turns into
    False). *)
Theorem X18_frame_length_prefix method :
  let msg := list_byte_of_string (Wire.dumps_request method) in
  ((N.of_nat (List.length msg) < 2 ^ 32)%N ->
   exists fr,
     Wire.frame method = Some fr
     /\ List.length fr = (4 + List.length msg)%nat
     /\ Wire.of_bytes_le (firstn 4 fr) = N.of_nat (List.length msg)
     /\ skipn 4 fr = msg)
  /\ ((2 ^ 32 <= N.of_nat (List.length msg))%N -> Wire.frame method = None).
Proof.
  intros msg. unfold Wire.frame. fold msg. unfold Wire.to_bytes4_le.
  set (n := N.of_nat (List.length msg)). split.
  - intros H. apply N.ltb_lt in H. rewrite H. apply N.ltb_lt in H.
    eexists. split; [reflexivity |]. split; [reflexivity |].
    split; [| reflexivity].
    cbn [firstn app Wire.of_bytes_le fold_right].
    rewrite !byte_of_N_to by (apply N.mod_lt; discriminate).
    change (2 ^ 32)%N with 4294967296%N in H.
    pose proof (N.div_mod n 256). pose proof (N.mod_lt n 256).
    pose proof (N.div_mod (n / 256) 256). pose proof (N.mod_lt (n / 256) 256).
    pose proof (N.div_mod (n / 256 / 256) 256).
    pose proof (N.mod_lt (n / 256 / 256) 256).
    pose proof (N.div_mod (n / 256 / 256 / 256) 256).
    pose proof (N.mod_lt (n / 256 / 256 / 256) 256).
    assert (Z : (n / 256 / 256 / 256 / 256 = 0)%N).
    { rewrite !N.Div0.div_div. apply N.div_small.
      change (256 * 256 * 256 * 256)%N with 4294967296%N. exact H. }
    replace (n / 65536)%N with (n / 256 / 256)%N
      by (now rewrite N.Div0.div_div).
    replace (n / 16777216)%N with (n / 256 / 256 / 256)%N
      by (now rewrite !N.Div0.div_div).
    lia.
  - intros H. apply N.ltb_ge in H. now rewrite H.
Qed.

Lemma all_printable_app a b :
  Wire.all_printable (a ++ b) = Wire.all_printable a && Wire.all_printable b.
Proof.
  induction a as [| c r IH]; cbn; [reflexivity |].
  now rewrite IH, andb_assoc.
Qed.

Lemma escape_char_printable c : Wire.all_printable (Wire.escape_char c) = true.
Proof. destruct c as [[] [] [] [] [] [] [] []]; reflexivity. Qed.

Lemma escape_printable s : Wire.all_printable (Wire.escape s) = true.
Proof.
  induction s as [| c r IH]; cbn; [reflexivity |].
  now rewrite all_printable_app, escape_char_printable, IH.
Qed.

(** X19. Whatever the method name, the message of a request consists of
    printable ASCII characters only: control characters, quotes,
    backslashes and characters beyond ASCII are escaped. *)
Theorem X19_request_is_printable_ascii method :
  Wire.all_printable (Wire.dumps_request method) = true.
Proof.
  unfold Wire.dumps_request, Wire.quoted.
  cbn -[Wire.escape Wire.all_printable].
  cbn [Wire.all_printable]. rewrite !all_printable_app, escape_printable.
  reflexivity.
Qed.

Lemma read_escape_char c r v rest :
  Wire.read_string r = Some (v, rest) ->
  Wire.read_string (Wire.escape_char c ++ r) = Some (String c v, rest).
Proof.
  intros H.
  destruct c as [[] [] [] [] [] [] [] []];
    match goal with
    | |- context [Wire.escape_char ?c] =>
        let e := eval vm_compute in (Wire.escape_char c) in
        change (Wire.escape_char c) with e
    end;
    cbn [append Wire.read_string]; rewrite H; reflexivity.
Qed.

Lemma read_escape s rest :
  Wire.read_string (Wire.escape s ++ String Wire.QUOTE rest) = Some (s, rest).
Proof.
  induction s as [| c r IH]; [reflexivity |].
  cbn [Wire.escape]. rewrite str_app_assoc. now apply read_escape_char.
Qed.

(** X20. The method name can be read back exactly from the message,
    whatever characters it contains, and the reading stops at the quote that
    closes it: a name cannot end its own string literal or reach into the
    rest of the message. *)
Theorem X20_method_round_trip method :
  Wire.read_method (Wire.dumps_request method)
  = Some (method, (", " ++ Wire.quoted "data" ++ ": {}}")%string)
  /\ (forall m', Wire.dumps_request m' = Wire.dumps_request method -> m' = method).
Proof.
  assert (R : forall m,
            Wire.read_method (Wire.dumps_request m)
            = Some (m, (", " ++ Wire.quoted "data" ++ ": {}}")%string)).
  { intros m. unfold Wire.read_method, Wire.dumps_request, Wire.quoted.
    cbn -[Wire.read_string Wire.escape].
    rewrite str_app_assoc. cbn -[Wire.read_string Wire.escape].
    apply read_escape. }
  split; [apply R |].
  intros m' E. pose proof (R m') as A. rewrite E, R in A. congruence.
Qed.

End WireProofs.

(** ** The dispatcher, the process, and [main] as a whole *)

Section Whole.

Arguments advance : simpl never.
Arguments run_reader : simpl never.

(** X21. An action has no command exactly when it is not one of the six
    power actions: "test", and any other name as well, since a missing key
    of the table reads as None.  Such an action launches nothing, with or
    without animation. *)
Theorem X21_unknown_action_is_a_test action :
  (dict_get POWER_COMMANDS action = None <-> ~ In action POWER_ACTIONS)
  /\ (~ In action POWER_ACTIONS ->
      forall fuel anim hold_time env w,
        launched (events (execute_power_action fuel action anim hold_time env w)) = []
        /\ launched (events (run_without_animation action hold_time env w)) = []).
Proof.
  assert (A : dict_get POWER_COMMANDS action = None <-> ~ In action POWER_ACTIONS).
  { split.
    - intros N H. cbn in H.
      destruct H as [<- | [<- | [<- | [<- | [<- | [<- | []]]]]]]; discriminate N.
    - intros H. destruct (action_cases action) as [I | N]; [| exact N].
      now elim H. }
  split; [exact A |].
  intros H fuel anim hold_time env w. apply A in H.
  rewrite execute_launched.
  destruct (run_plain action hold_time env w) as (r & w' & t & E & L & _).
  rewrite E. unfold events. cbn [snd]. rewrite L.
  unfold power_launches. now rewrite H.
Qed.



(** X23. What [main] launches: the programs of the action when no
    animation is asked for or when the animation has started, nothing when
    the animation does not start. *)
Theorem X23_main_launches fuel action name hold_time env w :
  launched (events (main fuel action name hold_time env w))
  = if (name =? "none")%string then power_launches env action
    else match get_animation_script env name with
         | Some path =>
             if path_exists env path then power_launches env action else []
         | None => []
         end.
Proof.
  destruct (name =? "none")%string eqn:Hn.
  - apply String.eqb_eq in Hn. subst name. rewrite main_none.
    destruct (run_plain action hold_time env w) as (r & w' & t & E & L & _).
    rewrite E. unfold events. cbn [snd]. now rewrite launched_app, L.
  - destruct (get_animation_script env name) as [path |] eqn:G.
    + destruct (path_exists env path) eqn:X.
      * destruct (handshake_run fuel action name hold_time env w path Hn G X)
          as (ready & black & w1 & K).
        pose proof (execute_launched fuel action (Some TheAnimation)
                      hold_time env w1) as L.
        destruct (execute_power_action fuel action (Some TheAnimation)
                    hold_time env w1) as [[r w2] t] eqn:E.
        rewrite (K _ _ _ eq_refl). unfold events in *. cbn [snd] in *.
        now rewrite !launched_app, launched_handshake, L.
      * destruct (main_script_missing fuel action name hold_time env w path Hn G X)
          as [_ E].
        now rewrite E.
    + now rewrite main_no_script by assumption.
Qed.

End Whole.

(** ** Instances of the further statements *)

Section MoreInstances.



Lemma X4_witness :
  exists w',
    terminate env_silent world_started
      = (Ret tt, w', [ProcTerminate; ProcWait 2 false; ProcKill])
    /\ is_running env_silent w' = (Ret true, w', [])
    /\ result (is_running env_silent (advance (now w' + (1 # 1000)) w'))
       = Ret false.
Proof.
  destruct (X4_terminate_and_is_running env_silent world_started)
    as (w' & t & E & _ & _ & _ & K & F).
  assert (T : events (terminate env_silent world_started)
              = [ProcTerminate; ProcWait 2 false; ProcKill]) by reflexivity.
  rewrite E in T. unfold events in T. cbn [snd] in T. subst t.
  exists w'. split; [exact E |]. split.
  - apply K. right. right. left. reflexivity.
  - apply F. apply Qle_refl.
Defined.

Lemma X5_witness :
  "fire" <> "none"
  /\ get_animation_script env_silent "fire" = Some FIRE
  /\ path_exists env_silent FIRE = true
  /\ exists ready black w1 t,
       (now w1 <= now world0 + 35)%Q
       /\ events (main 0 "test" "fire" 3 env_silent world0)
          = preamble "test" "fire" ++ handshake_trace "fire" FIRE ready black ++ t.
Proof.
  assert (N : "fire" <> "none") by discriminate.
  split; [exact N |]. split; [reflexivity |]. split; [reflexivity |].
  destruct (X5_handshake_at_most_35_seconds 0 "test" "fire" 3 env_silent world0
              FIRE N eq_refl eq_refl)
    as (ready & black & w1 & _ & B & _ & K).
  destruct (execute_power_action 0 "test" (Some TheAnimation) 3 env_silent w1)
    as [[r w2] t] eqn:E.
  exists ready, black, w1, t. split; [exact B |].
  rewrite (K r w2 t eq_refl). reflexivity.
Defined.



Lemma X9_witness :
  result (get_session_id env_chatty world0) = Ret "c2"
  /\ no_space "c2" = true
  /\ ("c2" = ""
      <-> all_space (String NBSP "c2 1000 user seat0 tty2") = true).
Proof.
  split; [reflexivity |].
  exact (X9_session_id_shape env_chatty world0 "c2" eq_refl).
Defined.

Lemma X10_witness :
  _find_animations_dir env_silent = Some "/effects"
  /\ path_isdir env_silent "/effects" = true
  /\ _find_animations_dir env_bare = None.
Proof.
  destruct (X10_find_animations_dir env_silent) as (A & B & _).
  destruct (X10_find_animations_dir env_bare) as (_ & _ & C).
  assert (F : _find_animations_dir env_silent = Some "/effects").
  { apply B; [reflexivity | discriminate | reflexivity]. }
  split; [exact F |]. split; [exact (proj1 (A _ F)) |].
  apply C. split; [intros e H; discriminate H | split; reflexivity].
Defined.

Lemma X11_witness :
  discovery env_silent = None
  /\ _find_animations_dir env_silent = Some "/effects"
  /\ "/effects" <> ""
  /\ get_animation_script env_silent "fire" = Some "/effects/fire/animate.py"
  /\ get_animation_script env_silent "/tmp/x" = Some "/tmp/x/animate.py".
Proof.
  assert (N : "/effects" <> "") by discriminate.
  split; [reflexivity |]. split; [reflexivity |]. split; [exact N |].
  destruct (X11_script_path env_silent "/effects" "fire" eq_refl eq_refl N)
    as [A B].
  split.
  - apply A; [discriminate | reflexivity].
  - apply (B "tmp/" "x"%char). discriminate.
Defined.

Lemma X12_witness :
  Sorted (fun a b => String.leb a b = true)
         (list_animations env_silent (fun _ => ["water"; "fire"]))
  /\ Permutation (list_animations env_silent (fun _ => ["water"; "fire"])) ["fire"]
  /\ list_animations env_bare (fun _ => ["water"; "fire"]) = [].
Proof.
  destruct (X12_list_animations env_silent (fun _ => ["water"; "fire"]))
    as (A & B & _).
  destruct (X12_list_animations env_bare (fun _ => ["water"; "fire"]))
    as (_ & _ & C).
  split; [exact A |]. split.
  - apply (B "/effects"); [reflexivity | discriminate].
  - apply C. reflexivity.
Defined.

Lemma X13_witness :
  discovery env_silent = None
  /\ In "fire" (animation_choices (list_animations env_silent (fun _ => ["water"; "fire"])))
  /\ exists path,
       get_animation_script env_silent "fire" = Some path
       /\ path_exists env_silent path = true
       /\ result (start env_silent (set_animation (__init__ (Some path)) world0))
          = Ret true.
Proof.
  assert (I : In "fire" (animation_choices
                           (list_animations env_silent (fun _ => ["water"; "fire"]))))
    by (left; reflexivity).
  split; [reflexivity |]. split; [exact I |].
  destruct (X13_every_choice_starts env_silent (fun _ => ["water"; "fire"]) "fire"
              eq_refl I)
    as [E | (path & G & X & S)].
  - discriminate E.
  - exists path. split; [exact G |]. split; [exact X |].
    destruct (S world0) as [w' E]. rewrite E. reflexivity.
Defined.

Lemma X17_witness :
  In "reboot" ["shutdown"; "reboot"; "windows"]
  /\ exists w' t,
       execute_power_action 2 "reboot" (Some TheAnimation) 3 env_silent world_started
         = (Holding, w', t)
       /\ actions t = [Popen ["sudo"; "-A"; "reboot"]; Sleep 1; Sleep 1]
       /\ process (animation w') = process (animation world_started).
Proof.
  assert (I : In "reboot" ["shutdown"; "reboot"; "windows"])
    by (right; left; reflexivity).
  split; [exact I |].
  destruct (X17_hold_leaves_animation_alone 2 "reboot" (Some TheAnimation) 3
              env_silent world_started (or_introl I))
    as (w' & t & E & A & P & _).
  exists w', t. split; [exact E |]. split; [exact A | exact P].
Defined.

Lemma X18_witness :
  (N.of_nat (List.length (list_byte_of_string (Wire.dumps_request "freeze")))
   < 2 ^ 32)%N
  /\ exists fr,
       Wire.frame "freeze" = Some fr
       /\ List.length fr = 36%nat
       /\ Wire.of_bytes_le (firstn 4 fr) = 32%N
       /\ skipn 4 fr = list_byte_of_string (Wire.dumps_request "freeze").
Proof.
  assert (L : (N.of_nat (List.length
                           (list_byte_of_string (Wire.dumps_request "freeze")))
               < 2 ^ 32)%N) by reflexivity.
  split; [exact L |].
  destruct (proj1 (X18_frame_length_prefix "freeze") L) as (fr & F & A & B & C).
  exists fr. split; [exact F |]. split; [exact A |]. split; [exact B | exact C].
Defined.

Lemma X21_witness :
  ~ In "test" POWER_ACTIONS
  /\ dict_get POWER_COMMANDS "test" = None
  /\ launched (events (execute_power_action 5 "test" (Some TheAnimation) 3
                         env_silent world_started)) = []
  /\ launched (events (run_without_animation "test" 3 env_silent world0)) = [].
Proof.
  destruct (X21_unknown_action_is_a_test "test") as [A B].
  assert (N : ~ In "test" POWER_ACTIONS) by (apply A; reflexivity).
  split; [exact N |]. split; [apply A; exact N |].
  split.
  - exact (proj1 (B N 5%nat (Some TheAnimation) 3 env_silent world_started)).
  - exact (proj2 (B N 0%nat None 3 env_silent world0)).
Defined.


End MoreInstances.
